(** * gitbatch, package [git]: the repository entity and its operations

    A shallow embedding of [pkg/git/repository.go]: the [RepoEntity] record,
    [InitializeRepository], [Pull], [Fetch], [Merge] and [Refresh].

    The Go code mutates the entity through a pointer, calls into the
    filesystem and into go-git, and may panic on a nil pointer.  It is
    embedded in a small monad that threads the memory (the directory on disk,
    the heap of [Remote] objects and the entity's fields), collects the
    sequence of calls that were made, and stops at a nil dereference.

    The methods [loadLocalBranches], [loadCommits], [loadRemotes],
    [getActiveBranch], [Checkout], [FetchWithGit] and [MergeWithGit] live in
    other files of the package; they are parameters of the development
    (record [Helpers]), and what a theorem needs of them is a hypothesis of
    that theorem.  [switchRemoteBranch], a method of [*Remote], is modelled
    from the specification. *)

From Stdlib Require Import String List ZArith Lia.
From stdpp Require Import base option strings gmap.
Import ListNotations.

Local Open Scope string_scope.
Local Open Scope list_scope.

(** ** Data model *)

(** A Go [error] value, identified by the text of its [Error()] method. *)
Definition error := string.

(** [errors.New(text)] *)
Definition errors_New (text : string) : error := text.

(** [os.ErrInvalid], returned by the methods of a nil [*os.File]. *)
Definition ErrInvalid : error := "invalid argument".

(** [type RepoState uint8] with its five constants. *)
Inductive RepoState := Available | Queued | Working | Success | Fail.

Definition RepoState_value (s : RepoState) : Z :=
  match s with
  | Available => 0 | Queued => 1 | Working => 2 | Success => 3 | Fail => 4
  end%Z.

(** Modelled from the spec: the struct [Branch] is declared in another file;
    the spec gives it a name and a reference into the repository. *)
Module Branch.
Record t := mk { Name : string; Hash : string }.
End Branch.

(** Modelled from the spec: a remote-tracking branch, the element type of
    [Remote.Branches] and the target of [Remote.Branch]. *)
Module RemoteBranch.
Record t := mk { Name : string; Hash : string }.
End RemoteBranch.

(** Modelled from the spec: the struct [Remote] is declared in another file;
    the spec gives it a name, the ordered remote-tracking branches and the
    selected one ([Branch], nil when none is selected). *)
Module Remote.
Record t := mk {
    Name : string;
    Branch : option RemoteBranch.t;
    Branches : list RemoteBranch.t
  }.
End Remote.

(** Modelled from the spec: the struct [Commit] is declared in another file;
    it is an immutable record. *)
Module Commit.
Record t := mk { Hash : string; Message : string }.
End Commit.

(** A [*Remote]: an address in the heap of [Remote] objects.  [entity.Remote]
    and the elements of [entity.Remotes] may point to the same object. *)
Definition loc := nat.

(** [git.Repository] of go-git, an opaque handle. *)
Definition git_Repository := nat.

(** [*os.File] and [os.FileInfo]. *)
Definition File := nat.

Module FileInfo.
Record t := mk { Name : string; ModTime : Z }.
End FileInfo.

(** [type RepoEntity struct].  Pointer fields are options, [None] for nil. *)
Module RepoEntity.
Record t := mk {
    RepoID : string;
    Name : string;
    AbsPath : string;
    ModTime : Z;
    Repository : git_Repository;
    Branch : option Branch.t;
    Branches : list Branch.t;
    Remote : option loc;
    Remotes : list loc;
    Commit : option Commit.t;
    Commits : list Commit.t;
    State : RepoState
  }.

Definition set_ModTime (v : Z) (e : t) : t :=
    mk (RepoID e) (Name e) (AbsPath e) v (Repository e) (Branch e)
       (Branches e) (Remote e) (Remotes e) (Commit e) (Commits e) (State e).
Definition set_Repository (v : git_Repository) (e : t) : t :=
    mk (RepoID e) (Name e) (AbsPath e) (ModTime e) v (Branch e)
       (Branches e) (Remote e) (Remotes e) (Commit e) (Commits e) (State e).
Definition set_Branch (v : option Branch.t) (e : t) : t :=
    mk (RepoID e) (Name e) (AbsPath e) (ModTime e) (Repository e) v
       (Branches e) (Remote e) (Remotes e) (Commit e) (Commits e) (State e).
Definition set_Remote (v : option loc) (e : t) : t :=
    mk (RepoID e) (Name e) (AbsPath e) (ModTime e) (Repository e) (Branch e)
       (Branches e) v (Remotes e) (Commit e) (Commits e) (State e).
Definition set_Commit (v : option Commit.t) (e : t) : t :=
    mk (RepoID e) (Name e) (AbsPath e) (ModTime e) (Repository e) (Branch e)
       (Branches e) (Remote e) (Remotes e) v (Commits e) (State e).

  (** The fields that name the entity and its batch state. *)
Definition identity (e : t) : string * string * string * RepoState :=
    (RepoID e, Name e, AbsPath e, State e).
End RepoEntity.

(** The calls a run makes, in the order it makes them, with their error
    results.  [EvRefresh] and [EvRefreshReturn] mark a call of [Refresh] and
    its return; [EvTrace] is a line handed to the logger. *)
Inductive Event :=
| EvOpen (path : string)
| EvStat (r : option error)
| EvPlainOpen (path : string) (r : option error)
| EvLoadLocalBranches (r : option error)
| EvLoadCommits (r : option error)
| EvLoadRemotes (r : option error)
| EvSwitchRemoteBranch (name : string) (r : option error)
| EvCheckout (b : option Branch.t) (r : option error)
| EvFetchWithGit (rm : string) (r : option error)
| EvMergeWithGit (name : string) (r : option error)
| EvTrace (key value msg : string)
| EvRefresh
| EvRefreshReturn (r : option error).

(** The memory a method of [*RepoEntity] can reach: the directory on disk,
    the [Remote] objects, and the fields of the entity. *)
Record Mem (World : Type) := mkMem {
  disk : World;
  heap : gmap loc Remote.t;
  entity : RepoEntity.t
}.
Arguments mkMem {World} _ _ _.
Arguments disk {World} _.
Arguments heap {World} _.
Arguments entity {World} _.

Definition with_entity {World} (f : RepoEntity.t -> RepoEntity.t)
    (m : Mem World) : Mem World :=
  mkMem (disk m) (heap m) (f (entity m)).

Definition with_heap {World} (f : gmap loc Remote.t -> gmap loc Remote.t)
    (m : Mem World) : Mem World :=
  mkMem (disk m) (f (heap m)) (entity m).

(** What the file calls and does not define: [os], go-git, the [helpers]
    package and the methods of [*RepoEntity] written in other files.  A
    method receives the whole memory and returns it with its [error]. *)
Record Helpers (World : Type) := mkHelpers {
  os_Open : World -> string -> File + error;
  File_Stat : World -> File -> FileInfo.t + error;
  git_PlainOpen : World -> string -> git_Repository + error;
  RandomString : World -> nat -> string;
  loadLocalBranches : Mem World -> Mem World * option error;
  loadCommits : Mem World -> Mem World * option error;
  loadRemotes : Mem World -> Mem World * option error;
  getActiveBranch : Mem World -> option Branch.t;
  Checkout : option Branch.t -> Mem World -> Mem World * option error;
  FetchWithGit : string -> Mem World -> Mem World * option error;
  MergeWithGit : string -> Mem World -> Mem World * option error
}.
Arguments os_Open {World} _ _ _.
Arguments File_Stat {World} _ _ _.
Arguments git_PlainOpen {World} _ _ _.
Arguments RandomString {World} _ _ _.
Arguments loadLocalBranches {World} _ _.
Arguments loadCommits {World} _ _.
Arguments loadRemotes {World} _ _.
Arguments getActiveBranch {World} _ _.
Arguments Checkout {World} _ _ _.
Arguments FetchWithGit {World} _ _ _.
Arguments MergeWithGit {World} _ _ _.

(** Modelled from the spec: [switchRemoteBranch] is a method of [*Remote]
    written in another file.  The spec has it select the remote-tracking
    branch of that exact name; when there is none the selection fails with
    an error and the prior selection remains. *)
Definition switchRemoteBranch (remote : Remote.t) (remoteBranchName : string)
    : Remote.t * option error :=
  match find (fun rb => String.eqb (RemoteBranch.Name rb) remoteBranchName)
             (Remote.Branches remote) with
  | Some rb =>
      (Remote.mk (Remote.Name remote) (Some rb) (Remote.Branches remote), None)
  | None => (remote, Some (errors_New "Remote branch not found."))
  end.

(** ** The monad of the embedding *)

(** A run either returns, or panics on a nil pointer dereference. *)
Inductive outcome (World A : Type) :=
| Ret (a : A) (m : Mem World)
| Panic (m : Mem World).
Arguments Ret {World A} _ _.
Arguments Panic {World A} _.

Definition M (World A : Type) : Type :=
  Mem World -> list Event * outcome World A.

Definition ret {World A} (a : A) : M World A := fun m => ([], Ret a m).

Definition bind {World A B} (x : M World A) (k : A -> M World B)
    : M World B :=
  fun m =>
    match x m with
    | (evs, Ret a m1) => let (evs', o) := k a m1 in (evs ++ evs', o)
    | (evs, Panic m1) => (evs, Panic m1)
    end.

Declare Scope go_scope.
Delimit Scope go_scope with go.
Notation "x <- c1 ;; c2" := (bind c1 (fun x => c2))
  (at level 100, c1 at next level, right associativity) : go_scope.
Notation "c1 ;; c2" := (bind c1 (fun _ => c2))
  (at level 100, right associativity) : go_scope.

Definition emit {World} (ev : Event) : M World unit :=
  fun m => ([ev], Ret tt m).

(** Reading the entity's fields. *)
Definition read {World A} (f : RepoEntity.t -> A) : M World A :=
  fun m => ([], Ret (f (entity m)) m).

(** Writing one of them. *)
Definition write {World} (f : RepoEntity.t -> RepoEntity.t) : M World unit :=
  fun m => ([], Ret tt (with_entity f m)).

(** Following a pointer: nil panics. *)
Definition deref {World A} (p : option A) : M World A :=
  fun m => match p with
           | Some a => ([], Ret a m)
           | None => ([], Panic m)
           end.

(** Following a [*Remote] into the heap. *)
Definition deref_Remote {World} (p : option loc) : M World Remote.t :=
  fun m => match p with
           | Some l => match heap m !! l with
                       | Some r => ([], Ret r m)
                       | None => ([], Panic m)
                       end
           | None => ([], Panic m)
           end.

(** Calling a method written in another file, and recording its result. *)
Definition call {World} (f : Mem World -> Mem World * option error)
    (ev : option error -> Event) : M World (option error) :=
  fun m => let (m', r) := f m in ([ev r], Ret r m').

(** The error half of a Go [(value, err)] pair, and the value half as a
    pointer. *)
Definition err_of {A} (r : A + error) : option error :=
  match r with inl _ => None | inr e => Some e end.

Definition val_of {A} (r : A + error) : option A :=
  match r with inl a => Some a | inr _ => None end.

(** ** The functions of [repository.go] *)

(** The two lines [Fetch], [Pull] and [Merge] hand to the logger:
    [log.WithFields(log.Fields{key: value}).Trace(msg)]. *)
Definition fetch_trace (rm : string) : Event :=
  EvTrace "remote" rm "Error while fetching remote".
Definition merge_trace (name : string) : Event :=
  EvTrace "branch" name "Error while merge to branch".

Section Repository.

Context {World : Type}.
Variable A : Helpers World.

Local Open Scope go_scope.

(** [os.Open(path)]: the pair [(file, err)]. *)
Definition os_Open_ (path : string) : M World (File + error) :=
  fun m => ([EvOpen path], Ret (os_Open A (disk m) path) m).

(** [file.Stat()].  On a nil [*os.File] the method returns [ErrInvalid]. *)
Definition File_Stat_ (file : option File) : M World (FileInfo.t + error) :=
  fun m =>
    let r := match file with
             | Some f => File_Stat A (disk m) f
             | None => inr ErrInvalid
             end in
    ([EvStat (err_of r)], Ret r m).

(** [git.PlainOpen(path)] *)
Definition git_PlainOpen_ (path : string)
    : M World (git_Repository + error) :=
  fun m =>
    let r := git_PlainOpen A (disk m) path in
    ([EvPlainOpen path (err_of r)], Ret r m).

Definition loadLocalBranches_ : M World (option error) :=
  call (loadLocalBranches A) EvLoadLocalBranches.
Definition loadCommits_ : M World (option error) :=
  call (loadCommits A) EvLoadCommits.
Definition loadRemotes_ : M World (option error) :=
  call (loadRemotes A) EvLoadRemotes.
Definition getActiveBranch_ : M World (option Branch.t) :=
  fun m => ([], Ret (getActiveBranch A m) m).
Definition Checkout_ (branch : option Branch.t) : M World (option error) :=
  call (Checkout A branch) (EvCheckout branch).
Definition FetchWithGit_ (rm : string) : M World (option error) :=
  call (FetchWithGit A rm) (EvFetchWithGit rm).
Definition MergeWithGit_ (name : string) : M World (option error) :=
  call (MergeWithGit A name) (EvMergeWithGit name).

(** [remote.switchRemoteBranch(name)] on the object a [*Remote] points to:
    the object is updated in place, so every alias sees the selection. *)
Definition switchRemoteBranch_ (p : option loc) (name : string)
    : M World (option error) :=
  fun m =>
    match p with
    | Some l =>
        match heap m !! l with
        | Some remote =>
            let (remote', r) := switchRemoteBranch remote name in
            ([EvSwitchRemoteBranch name r],
             Ret r (with_heap (fun h => <[l := remote']> h) m))
        | None => ([], Panic m)
        end
    | None => ([], Panic m)
    end.

(** [entity.Remote.Name] *)
Definition entity_Remote_Name : M World string :=
  p <- read RepoEntity.Remote ;;
  remote <- deref_Remote p ;;
  ret (Remote.Name remote).

(** [entity.Remote.Branch.Name] *)
Definition entity_Remote_Branch_Name : M World string :=
  p <- read RepoEntity.Remote ;;
  remote <- deref_Remote p ;;
  rb <- deref (Remote.Branch remote) ;;
  ret (RemoteBranch.Name rb).

(** [entity.Branch.Name] *)
Definition entity_Branch_Name : M World string :=
  p <- read RepoEntity.Branch ;;
  b <- deref p ;;
  ret (Branch.Name b).

(** [func (entity *RepoEntity) Refresh() error] *)
Definition Refresh : M World (option error) :=
  path <- read RepoEntity.AbsPath ;;
  file <- os_Open_ path ;;
  fileInfo <- File_Stat_ (val_of file) ;;
  match fileInfo with
  | inr err => ret (Some err)
  | inl fileInfo =>
      path <- read RepoEntity.AbsPath ;;
      r <- git_PlainOpen_ path ;;
      match r with
      | inr err => ret (Some err)
      | inl r =>
          write (RepoEntity.set_Repository r) ;;
          write (RepoEntity.set_ModTime (FileInfo.ModTime fileInfo)) ;;
          err <- loadLocalBranches_ ;;
          match err with
          | Some err => ret (Some err)
          | None =>
              err <- loadCommits_ ;;
              match err with
              | Some err => ret (Some err)
              | None =>
                  err <- loadRemotes_ ;;
                  match err with
                  | Some err => ret (Some err)
                  | None => ret None
                  end
              end
          end
      end
  end.

(** A call [entity.Refresh()] from another method, recorded with its
    result. *)
Definition Refresh_ : M World (option error) :=
  emit EvRefresh ;;
  r <- Refresh ;;
  emit (EvRefreshReturn r) ;;
  ret r.

(** [func (entity *RepoEntity) Pull() error] *)
Definition Pull : M World (option error) :=
  rm <- entity_Remote_Name ;;
  err <- FetchWithGit_ rm ;;
  match err with
  | Some err =>
      emit (fetch_trace rm) ;;
      ret (Some err)
  | None =>
      b <- read RepoEntity.Branch ;;
      _ <- Checkout_ b ;;
      name <- entity_Remote_Branch_Name ;;
      err <- MergeWithGit_ name ;;
      match err with
      | Some err =>
          name <- entity_Remote_Branch_Name ;;
          emit (merge_trace name) ;;
          _ <- Refresh_ ;;
          ret (Some err)
      | None =>
          _ <- Refresh_ ;;
          b <- read RepoEntity.Branch ;;
          _ <- Checkout_ b ;;
          ret None
      end
  end.

(** [func (entity *RepoEntity) Fetch() error] *)
Definition Fetch : M World (option error) :=
  rm <- entity_Remote_Name ;;
  err <- FetchWithGit_ rm ;;
  match err with
  | Some err =>
      emit (fetch_trace rm) ;;
      ret (Some err)
  | None =>
      _ <- Refresh_ ;;
      b <- read RepoEntity.Branch ;;
      _ <- Checkout_ b ;;
      ret None
  end.

(** [func (entity *RepoEntity) Merge() error] *)
Definition Merge : M World (option error) :=
  b <- read RepoEntity.Branch ;;
  _ <- Checkout_ b ;;
  name <- entity_Remote_Branch_Name ;;
  err <- MergeWithGit_ name ;;
  match err with
  | Some err =>
      name <- entity_Remote_Branch_Name ;;
      emit (merge_trace name) ;;
      _ <- Refresh_ ;;
      ret (Some err)
  | None =>
      _ <- Refresh_ ;;
      ret None
  end.

(** The part of [InitializeRepository] that runs once the struct is
    allocated: from [entity.loadLocalBranches()] to the last [return]. *)
Definition InitializeRepository_fill (directory : string)
    : M World (option error) :=
  _ <- loadLocalBranches_ ;;
  _ <- loadCommits_ ;;
  commits <- read RepoEntity.Commits ;;
  match commits with
  | c :: _ =>
      write (RepoEntity.set_Commit (Some c)) ;;
      _ <- loadRemotes_ ;;
      b <- getActiveBranch_ ;;
      write (RepoEntity.set_Branch b) ;;
      remotes <- read RepoEntity.Remotes ;;
      match remotes with
      | r :: _ =>
          write (RepoEntity.set_Remote (Some r)) ;;
          rname <- entity_Remote_Name ;;
          bname <- entity_Branch_Name ;;
          p <- read RepoEntity.Remote ;;
          _ <- switchRemoteBranch_ p (rname +:+ "/" +:+ bname) ;;
          ret None
      | [] =>
          ret (Some (errors_New
                 ("There is no remote for this repository: " +:+ directory)))
      end
  | [] =>
      ret (Some (errors_New
             ("There is no commit for this repository: " +:+ directory)))
  end.

(** The struct literal [&RepoEntity{RepoID: helpers.RandomString(8), ...}]:
    the fields it does not name hold their zero values. *)
Definition new_entity (directory : string) (w : World)
    (fileInfo : FileInfo.t) (r : git_Repository) : RepoEntity.t :=
  RepoEntity.mk (RandomString A w 8) (FileInfo.Name fileInfo) directory
    (FileInfo.ModTime fileInfo) r None [] None [] None [] Available.

(** [func InitializeRepository(directory string) (entity *RepoEntity, err error)].
    [inl err] is the pair [(nil, err)].  [inr (evs, Ret err m)] is the pair
    [(entity, err)], the entity's fields being [entity m]; [w] is the disk
    and [h] the [Remote] objects that exist at the call.  The lines traced
    before a [(nil, err)] return are not recorded. *)
Definition InitializeRepository (directory : string) (w : World)
    (h : gmap loc Remote.t)
    : sum error (list Event * outcome World (option error)) :=
  match os_Open A w directory with
  | inr err => inl err
  | inl file =>
      match File_Stat A w file with
      | inr err => inl err
      | inl fileInfo =>
          match git_PlainOpen A w directory with
          | inr err => inl err
          | inl r =>
              let entity := new_entity directory w fileInfo r in
              inr (InitializeRepository_fill directory (mkMem w h entity))
          end
      end
  end.

End Repository.

(** ** The three composite operations, and what a caller can observe *)

Inductive Operation := OpFetch | OpMerge | OpPull.

Definition run {World} (A : Helpers World) (op : Operation)
    : M World (option error) :=
  match op with
  | OpFetch => Fetch A
  | OpMerge => Merge A
  | OpPull => Pull A
  end.

(** The memory a run ends in, whether it returned or panicked. *)
Definition final {World A} (o : outcome World A) : Mem World :=
  match o with Ret _ m => m | Panic m => m end.

(** The error [e] reaches a Go caller that holds [err := entity.Op()]: the
    value [err] is not nil and its text is, or contains, the text of [e]. *)
Definition surfaced (r : option error) (e : error) : Prop :=
  exists t, r = Some t /\ String.index 0 e t <> None.

(** The error of the first failed [FetchWithGit] or [MergeWithGit] call of a
    trace; the results of [Checkout] and [Refresh] play no part in it. *)
Fixpoint adapter_error (evs : list Event) : option error :=
  match evs with
  | [] => None
  | EvFetchWithGit _ (Some e) :: _ => Some e
  | EvMergeWithGit _ (Some e) :: _ => Some e
  | _ :: evs => adapter_error evs
  end.

(** [entity.Remote] points to a [Remote] object. *)
Definition has_Remote {World} (m : Mem World) : Prop :=
  exists l r, RepoEntity.Remote (entity m) = Some l /\ heap m !! l = Some r.

(** [entity.Remote] points to a [Remote] whose [Branch] is not nil. *)
Definition has_Remote_Branch {World} (m : Mem World) : Prop :=
  exists l r rb,
    RepoEntity.Remote (entity m) = Some l /\ heap m !! l = Some r /\
    Remote.Branch r = Some rb.

(** A method written elsewhere keeps a property of the memory. *)
Definition preserves {World} (P : Mem World -> Prop)
    (f : Mem World -> Mem World * option error) : Prop :=
  forall m, P m -> P (f m).1.

(** A method written elsewhere leaves an observation of the memory as it
    was. *)
Definition keeps {World X} (obs : Mem World -> X)
    (f : Mem World -> Mem World * option error) : Prop :=
  forall m, obs (f m).1 = obs m.

(** Every method written elsewhere leaves [obs] as it was. *)
Definition Helpers_keep {World X} (A : Helpers World) (obs : Mem World -> X)
    : Prop :=
  keeps obs (loadLocalBranches A) /\ keeps obs (loadCommits A) /\
  keeps obs (loadRemotes A) /\ (forall b, keeps obs (Checkout A b)) /\
  (forall rm, keeps obs (FetchWithGit A rm)) /\
  (forall n, keeps obs (MergeWithGit A n)).

(** The identity and state fields of the entity in a memory. *)
Definition identity_of {World} (m : Mem World)
    : string * string * string * RepoState :=
  RepoEntity.identity (entity m).

(** The cached state of the entity: its fields and the [Remote] objects. *)
Definition cached {World} (m : Mem World) : RepoEntity.t * gmap loc Remote.t :=
  (entity m, heap m).

(** ** A sample implementation of the missing methods *)

(** Modelled from the spec: a directory as the adapter of the spec sees it
    (section 6: open, stat, list branches, list commits, list remotes,
    fetch, merge, checkout, current head), with the error each capability
    answers, if any.  It serves to run the functions on concrete
    repositories. *)
Record Disk := mkDisk {
  dir_ok : bool;
  repo_ok : bool;
  dir_name : string;
  dir_mtime : Z;
  handle : git_Repository;
  refs_heads : list Branch.t;
  HEAD : string;
  history : list Commit.t;
  config_remotes : list Remote.t;
  next_loc : loc;
  branches_err : option error;
  commits_err : option error;
  remotes_err : option error;
  checkout_err : option error;
  fetch_err : option error;
  merge_err : option error
}.

Definition set_Branches (v : list Branch.t) (e : RepoEntity.t) : RepoEntity.t :=
  RepoEntity.mk (RepoEntity.RepoID e) (RepoEntity.Name e) (RepoEntity.AbsPath e)
    (RepoEntity.ModTime e) (RepoEntity.Repository e) (RepoEntity.Branch e) v
    (RepoEntity.Remote e) (RepoEntity.Remotes e) (RepoEntity.Commit e)
    (RepoEntity.Commits e) (RepoEntity.State e).

Definition set_Commits (v : list Commit.t) (e : RepoEntity.t) : RepoEntity.t :=
  RepoEntity.mk (RepoEntity.RepoID e) (RepoEntity.Name e) (RepoEntity.AbsPath e)
    (RepoEntity.ModTime e) (RepoEntity.Repository e) (RepoEntity.Branch e)
    (RepoEntity.Branches e) (RepoEntity.Remote e) (RepoEntity.Remotes e)
    (RepoEntity.Commit e) v (RepoEntity.State e).

Definition set_Remotes (v : list loc) (e : RepoEntity.t) : RepoEntity.t :=
  RepoEntity.mk (RepoEntity.RepoID e) (RepoEntity.Name e) (RepoEntity.AbsPath e)
    (RepoEntity.ModTime e) (RepoEntity.Repository e) (RepoEntity.Branch e)
    (RepoEntity.Branches e) (RepoEntity.Remote e) v (RepoEntity.Commit e)
    (RepoEntity.Commits e) (RepoEntity.State e).

Definition touch (dt : Z) (w : Disk) : Disk :=
  mkDisk (dir_ok w) (repo_ok w) (dir_name w) (dir_mtime w + dt) (handle w)
    (refs_heads w) (HEAD w) (history w) (config_remotes w) (next_loc w)
    (branches_err w) (commits_err w) (remotes_err w) (checkout_err w)
    (fetch_err w) (merge_err w).

Definition bump_loc (n : nat) (w : Disk) : Disk :=
  mkDisk (dir_ok w) (repo_ok w) (dir_name w) (dir_mtime w) (handle w)
    (refs_heads w) (HEAD w) (history w) (config_remotes w) (next_loc w + n)
    (branches_err w) (commits_err w) (remotes_err w) (checkout_err w)
    (fetch_err w) (merge_err w).

(** Fresh [Remote] objects at consecutive addresses from [l]. *)
Fixpoint alloc (l : loc) (rs : list Remote.t) (h : gmap loc Remote.t)
    : gmap loc Remote.t :=
  match rs with
  | [] => h
  | r :: rs => alloc (S l) rs (<[l := r]> h)
  end.

(** [loadRemotes] of the sample: one fresh [Remote] object per configured
    remote, none of them with a selected branch. *)
Definition sample_loadRemotes (m : Mem Disk) : Mem Disk * option error :=
  let w := disk m in
  let rs := config_remotes w in
  (mkMem (bump_loc (length rs) w) (alloc (next_loc w) rs (heap m))
         (set_Remotes (seq (next_loc w) (length rs)) (entity m)),
   remotes_err w).

(** Modelled from the spec: [getActiveBranch] is written in another file.
    The spec selects "whichever local branch corresponds to the
    VCS-reported HEAD"; when HEAD names no local branch there is none, and
    the [*Branch] handed back is nil. *)
Definition sample_getActiveBranch (m : Mem Disk) : option Branch.t :=
  find (fun b => String.eqb (Branch.Name b) (HEAD (disk m)))
       (RepoEntity.Branches (entity m)).

(** Fetch, merge and checkout of the sample. *)
Definition sample_action (err : Disk -> option error) (m : Mem Disk)
    : Mem Disk * option error :=
  match err (disk m) with
  | Some e => (m, Some e)
  | None => (mkMem (touch 1 (disk m)) (heap m) (entity m), None)
  end.

(** Modelled from the spec: the missing methods over a [Disk].  The loaders
    replace the collections wholesale; fetch, merge and checkout answer the
    error of the disk or else touch the directory; none writes a selection
    or an identity field of the entity. *)
Definition sample : Helpers Disk :=
  mkHelpers Disk
    (fun w _ => if dir_ok w then inl 3 else inr "no such file or directory")
    (fun w _ => if dir_ok w then inl (FileInfo.mk (dir_name w) (dir_mtime w))
                else inr "bad file descriptor")
    (fun w _ => if repo_ok w then inl (handle w)
                else inr "repository does not exist")
    (fun _ _ => "r3p0s1t0")
    (fun m => (with_entity (set_Branches (refs_heads (disk m))) m,
               branches_err (disk m)))
    (fun m => (with_entity (set_Commits (history (disk m))) m,
               commits_err (disk m)))
    sample_loadRemotes
    sample_getActiveBranch
    (fun _ => sample_action checkout_err)
    (fun _ => sample_action fetch_err)
    (fun _ => sample_action merge_err).

Definition main : Branch.t := Branch.mk "main" "c3".
Definition origin_main : RemoteBranch.t := RemoteBranch.mk "origin/main" "c3".
Definition origin_dev : RemoteBranch.t := RemoteBranch.mk "origin/dev" "c1".
Definition c1 : Commit.t := Commit.mk "c1" "first".
Definition c2 : Commit.t := Commit.mk "c2" "second".
Definition c3 : Commit.t := Commit.mk "c3" "third".

(** A repository with branch [main], three commits and the remote [origin],
    which tracks the branches [rbs]. *)
Definition repo (rbs : list RemoteBranch.t) : Disk :=
  mkDisk true true "repo" 100 7 [main] "main" [c3; c2; c1]
    [Remote.mk "origin" None rbs] 0 None None None None None None.

(** The same directories with something wrong. *)
Definition empty_repo : Disk :=
  mkDisk true true "repo" 100 7 [] "main" [] [] 0 None None None None None None.
Definition no_remote_repo : Disk :=
  mkDisk true true "repo" 100 7 [main] "main" [c3; c2; c1] [] 0
    None None None None None None.

Definition failing (fetch merge checkout : option error) (gone : bool)
    (w : Disk) : Disk :=
  mkDisk (negb gone && dir_ok w) (negb gone && repo_ok w) (dir_name w)
    (dir_mtime w) (handle w) (refs_heads w) (HEAD w) (history w)
    (config_remotes w) (next_loc w) (branches_err w) (commits_err w)
    (remotes_err w) checkout fetch merge.

(** An entity loaded from [repo rbs], as [InitializeRepository] leaves it
    when [origin] has the selection [sel]. *)
Definition loaded (sel : option RemoteBranch.t) (rbs : list RemoteBranch.t)
    (w : Disk) : Mem Disk :=
  mkMem w {[ 0 := Remote.mk "origin" sel rbs ]}
    (RepoEntity.mk "r3p0s1t0" "repo" "/src/repo" 100 7 (Some main) [main]
       (Some 0) [0] (Some c3) [c3; c2; c1] Available).

(** ** The sub-steps of [Refresh] *)

Section RefreshSteps.

Context {World : Type}.
Variable A : Helpers World.

(** [os.Open(entity.AbsPath)] followed by [file.Stat()]. *)
Definition stat (m : Mem World) : FileInfo.t + error :=
  match val_of (os_Open A (disk m) (RepoEntity.AbsPath (entity m))) with
  | Some f => File_Stat A (disk m) f
  | None => inr ErrInvalid
  end.

(** [git.PlainOpen(entity.AbsPath)] *)
Definition reopen (m : Mem World) : git_Repository + error :=
  git_PlainOpen A (disk m) (RepoEntity.AbsPath (entity m)).

(** The two assignments [entity.Repository = *r] and
    [entity.ModTime = fileInfo.ModTime()]. *)
Definition stored (r : git_Repository) (fi : FileInfo.t) (m : Mem World)
    : Mem World :=
  with_entity (RepoEntity.set_ModTime (FileInfo.ModTime fi))
    (with_entity (RepoEntity.set_Repository r) m).

(** Where a [Refresh] started in [m] stops: the calls it made, the error it
    returns and the memory it leaves.  The directory is stat'ed, then the
    repository is opened, then handle and modification time are stored, then
    branches, commits and remotes are loaded; the first failure ends the run
    with the memory as the failing sub-step left it. *)
Inductive Refresh_stops (m : Mem World)
    : list Event -> option error -> Mem World -> Prop :=
| stops_at_Stat e :
    stat m = inr e ->
    Refresh_stops m
      [EvOpen (RepoEntity.AbsPath (entity m)); EvStat (Some e)] (Some e) m
| stops_at_PlainOpen fi e :
    stat m = inl fi -> reopen m = inr e ->
    Refresh_stops m
      [EvOpen (RepoEntity.AbsPath (entity m)); EvStat None;
       EvPlainOpen (RepoEntity.AbsPath (entity m)) (Some e)] (Some e) m
| stops_at_loadLocalBranches fi r m1 e :
    stat m = inl fi -> reopen m = inl r ->
    loadLocalBranches A (stored r fi m) = (m1, Some e) ->
    Refresh_stops m
      [EvOpen (RepoEntity.AbsPath (entity m)); EvStat None;
       EvPlainOpen (RepoEntity.AbsPath (entity m)) None;
       EvLoadLocalBranches (Some e)] (Some e) m1
| stops_at_loadCommits fi r m1 m2 e :
    stat m = inl fi -> reopen m = inl r ->
    loadLocalBranches A (stored r fi m) = (m1, None) ->
    loadCommits A m1 = (m2, Some e) ->
    Refresh_stops m
      [EvOpen (RepoEntity.AbsPath (entity m)); EvStat None;
       EvPlainOpen (RepoEntity.AbsPath (entity m)) None;
       EvLoadLocalBranches None; EvLoadCommits (Some e)] (Some e) m2
| stops_at_loadRemotes fi r m1 m2 m3 res :
    stat m = inl fi -> reopen m = inl r ->
    loadLocalBranches A (stored r fi m) = (m1, None) ->
    loadCommits A m1 = (m2, None) ->
    loadRemotes A m2 = (m3, res) ->
    Refresh_stops m
      [EvOpen (RepoEntity.AbsPath (entity m)); EvStat None;
       EvPlainOpen (RepoEntity.AbsPath (entity m)) None;
       EvLoadLocalBranches None; EvLoadCommits None; EvLoadRemotes res]
      res m3.

Local Open Scope go_scope.

(** [Refresh] with its sub-steps in the order of the sentence "re-opens the
    repository handle, re-stats the directory for a fresh modification time,
    and then reloads branches, commits, and remotes", each value stored as
    soon as it is loaded, the first failure returned. *)
Definition Refresh_as_stated : M World (option error) :=
  path <- read RepoEntity.AbsPath ;;
  r <- git_PlainOpen_ A path ;;
  match r with
  | inr err => ret (Some err)
  | inl r =>
      write (RepoEntity.set_Repository r) ;;
      file <- os_Open_ A path ;;
      fileInfo <- File_Stat_ A (val_of file) ;;
      match fileInfo with
      | inr err => ret (Some err)
      | inl fileInfo =>
          write (RepoEntity.set_ModTime (FileInfo.ModTime fileInfo)) ;;
          err <- loadLocalBranches_ A ;;
          match err with
          | Some err => ret (Some err)
          | None =>
              err <- loadCommits_ A ;;
              match err with
              | Some err => ret (Some err)
              | None => loadRemotes_ A
              end
          end
      end
  end.

(** The same with the stat taken first, as the code takes it, each value
    again stored as soon as it is loaded. *)
Definition Refresh_as_stated_stat_first : M World (option error) :=
  path <- read RepoEntity.AbsPath ;;
  file <- os_Open_ A path ;;
  fileInfo <- File_Stat_ A (val_of file) ;;
  match fileInfo with
  | inr err => ret (Some err)
  | inl fileInfo =>
      write (RepoEntity.set_ModTime (FileInfo.ModTime fileInfo)) ;;
      r <- git_PlainOpen_ A path ;;
      match r with
      | inr err => ret (Some err)
      | inl r =>
          write (RepoEntity.set_Repository r) ;;
          err <- loadLocalBranches_ A ;;
          match err with
          | Some err => ret (Some err)
          | None =>
              err <- loadCommits_ A ;;
              match err with
              | Some err => ret (Some err)
              | None => loadRemotes_ A
              end
          end
      end
  end.

(** The remote-level fetch followed by the composite [Merge]. *)
Definition FetchThenMerge : M World (option error) :=
  rm <- entity_Remote_Name ;;
  err <- FetchWithGit_ A rm ;;
  match err with
  | Some err => ret (Some err)
  | None => Merge A
  end.

End RefreshSteps.

(** A sub-step of [Refresh]. *)
Definition refresh_step (ev : Event) : bool :=
  match ev with
  | EvOpen _ | EvStat _ | EvPlainOpen _ _
  | EvLoadLocalBranches _ | EvLoadCommits _ | EvLoadRemotes _ => true
  | _ => false
  end.

(** The error of a failed [FetchWithGit] or [MergeWithGit] call. *)
Definition adapter_failure (ev : Event) : option error :=
  match ev with
  | EvFetchWithGit _ r | EvMergeWithGit _ r => r
  | _ => None
  end.

(** What a run hands back: [None] when it panicked. *)
Definition returned {World A} (o : outcome World A) : option A :=
  match o with Ret a _ => Some a | Panic _ => None end.

(** The calls of one [entity.Refresh()]: entry, sub-steps, return. *)
Definition refresh_call (steps : list Event) (r : option error) : list Event :=
  EvRefresh :: steps ++ [EvRefreshReturn r].

(** The traces the three operations can leave, with what they hand back. *)
Inductive trace_shape : Operation -> list Event -> option (option error) -> Prop :=
| Fetch_no_Remote :
    trace_shape OpFetch [] None
| Fetch_fetch_failed rm e :
    trace_shape OpFetch [EvFetchWithGit rm (Some e); fetch_trace rm]
      (Some (Some e))
| Fetch_done rm steps rr b c :
    Forall (fun ev => refresh_step ev = true) steps ->
    trace_shape OpFetch
      (EvFetchWithGit rm None :: refresh_call steps rr ++ [EvCheckout b c])
      (Some None)
| Merge_no_Remote_Branch b c :
    trace_shape OpMerge [EvCheckout b c] None
| Merge_failed_no_Remote_Branch b c n e :
    trace_shape OpMerge [EvCheckout b c; EvMergeWithGit n (Some e)] None
| Merge_merge_failed b c n e n' steps rr :
    Forall (fun ev => refresh_step ev = true) steps ->
    trace_shape OpMerge
      (EvCheckout b c :: EvMergeWithGit n (Some e) :: merge_trace n'
         :: refresh_call steps rr)
      (Some (Some e))
| Merge_done b c n steps rr :
    Forall (fun ev => refresh_step ev = true) steps ->
    trace_shape OpMerge
      (EvCheckout b c :: EvMergeWithGit n None :: refresh_call steps rr)
      (Some None)
| Pull_no_Remote :
    trace_shape OpPull [] None
| Pull_fetch_failed rm e :
    trace_shape OpPull [EvFetchWithGit rm (Some e); fetch_trace rm]
      (Some (Some e))
| Pull_no_Remote_Branch rm b c :
    trace_shape OpPull [EvFetchWithGit rm None; EvCheckout b c] None
| Pull_failed_no_Remote_Branch rm b c n e :
    trace_shape OpPull
      [EvFetchWithGit rm None; EvCheckout b c; EvMergeWithGit n (Some e)] None
| Pull_merge_failed rm b c n e n' steps rr :
    Forall (fun ev => refresh_step ev = true) steps ->
    trace_shape OpPull
      (EvFetchWithGit rm None :: EvCheckout b c :: EvMergeWithGit n (Some e)
         :: merge_trace n' :: refresh_call steps rr)
      (Some (Some e))
| Pull_done rm b c n steps rr b' c' :
    Forall (fun ev => refresh_step ev = true) steps ->
    trace_shape OpPull
      (EvFetchWithGit rm None :: EvCheckout b c :: EvMergeWithGit n None
         :: refresh_call steps rr ++ [EvCheckout b' c'])
      (Some None).

(** ** The sentences of the specification that the code does not meet *)

(** "Operation-time errors always trigger an attempted Refresh before
    propagating": whenever an operation returns after a failed adapter call,
    a [Refresh] was entered after that call. *)
Definition Refresh_before_every_adapter_error {World} (A : Helpers World)
    : Prop :=
  forall op m evs r m' ev e,
    run A op m = (evs, Ret r m') ->
    In ev evs -> adapter_failure ev = Some e ->
    exists pre post, evs = pre ++ ev :: post /\ In EvRefresh post.

(** "All requiring a non-nil Remote and Branch", read as a sufficient
    condition: with both pointers set no operation panics. *)
Definition safe_with_Remote_and_Branch {World} (A : Helpers World) : Prop :=
  forall op m,
    has_Remote m -> RepoEntity.Branch (entity m) <> None ->
    returned (run A op m).2 <> None.

(** "If that Refresh itself fails, its error is surfaced in addition to the
    original operation error": after a failed merge and a failed [Refresh]
    the caller holds both errors. *)
Definition Refresh_failure_surfaced {World} (A : Helpers World) : Prop :=
  forall op m evs r m' n em er,
    run A op m = (evs, Ret r m') ->
    In (EvMergeWithGit n (Some em)) evs ->
    In (EvRefreshReturn (Some er)) evs ->
    surfaced r em /\ surfaced r er.

(** ** Sample entities *)

(** The directory an entity was loaded from: one [Remote] object has been
    allocated. *)
Definition tracked : Disk := bump_loc 1 (repo [origin_main]).

(** The memory after a fetch, a checkout, a merge and a [Refresh] of the
    entity loaded from [tracked]: the collections are reloaded, a fresh
    [Remote] object is in [Remotes], and [entity.Remote] still points to the
    object selected at load time. *)
Definition after_merge : Mem Disk :=
  mkMem (bump_loc 1 (touch 3 tracked))
    (<[1 := Remote.mk "origin" None [origin_main]]>
       {[ 0 := Remote.mk "origin" (Some origin_main) [origin_main] ]})
    (RepoEntity.mk "r3p0s1t0" "repo" "/src/repo" 103 7 (Some main) [main]
       (Some 0) [1] (Some c3) [c3; c2; c1] Available).

(** [origin] tracks [origin/main] and it is selected. *)
Definition entity_of (w : Disk) : Mem Disk :=
  loaded (Some origin_main) [origin_main] w.

(** The fetch of [origin] is refused. *)
Definition fetch_refused : Mem Disk :=
  entity_of (failing (Some "fetch failed") None None false tracked).

(** The merge conflicts and the directory has vanished since. *)
Definition merge_refused_dir_gone : Mem Disk :=
  entity_of (failing None (Some "merge failed") None true tracked).

(** Fetch and merge go through; the checkout is refused and the directory
    has vanished since. *)
Definition checkout_refused_dir_gone : Mem Disk :=
  entity_of (failing None None (Some "checkout failed") true tracked).

(** The directory has vanished: it can be neither opened nor stat'ed, and
    go-git finds no repository. *)
Definition dir_gone : Mem Disk :=
  entity_of (failing None None None true tracked).

(** The directory was modified at time 250, after the entity was loaded, and
    go-git no longer finds a repository in it. *)
Definition repo_damaged : Mem Disk :=
  entity_of (mkDisk true false "repo" 250 7 [main] "main" [c3; c2; c1]
               [Remote.mk "origin" None [origin_main]] 0
               None None None None None None).

(** [origin] has no branch [origin/main]: what [InitializeRepository] leaves
    on [repo [origin_dev]]. *)
Definition untracked : Mem Disk :=
  loaded None [origin_dev] (bump_loc 1 (repo [origin_dev])).

(** ** Observations on traces and memories *)

(** A line handed to the logger. *)
Definition is_trace (ev : Event) : bool :=
  match ev with EvTrace _ _ _ => true | _ => false end.

(** The entry of a call of [Refresh]. *)
Definition is_Refresh (ev : Event) : bool :=
  match ev with EvRefresh => true | _ => false end.

(** A failed [FetchWithGit] call. *)
Definition is_failed_fetch (ev : Event) : bool :=
  match ev with EvFetchWithGit _ (Some _) => true | _ => false end.

(** The selections of the entity: [Branch], [Remote] and [Commit]. *)
Definition selection {World} (m : Mem World)
    : option Branch.t * option loc * option Commit.t :=
  (RepoEntity.Branch (entity m), RepoEntity.Remote (entity m),
   RepoEntity.Commit (entity m)).

(** The two fields [Refresh] assigns. *)
Definition refreshed_fields {World} (m : Mem World) : git_Repository * Z :=
  (RepoEntity.Repository (entity m), RepoEntity.ModTime (entity m)).

(** A call of one of the three loaders. *)
Definition is_load (ev : Event) : bool :=
  match ev with
  | EvLoadLocalBranches _ | EvLoadCommits _ | EvLoadRemotes _ => true
  | _ => false
  end.


(** "With commits but zero remotes it returns the entity together with a
    NoRemote-kind error, with Branch set and Remote unset". *)
Definition NoRemote_entity_has_Branch {World} (A : Helpers World) : Prop :=
  forall directory w h evs m,
    InitializeRepository A directory w h =
      inr (evs,
           Ret (Some (errors_New
                  ("There is no remote for this repository: " +:+ directory)))
               m) ->
    RepoEntity.Commits (entity m) <> [] ->
    RepoEntity.Branch (entity m) <> None /\
    RepoEntity.Remote (entity m) = None.

(** A repository with commits and no remote whose HEAD names no local
    branch, and the entity [InitializeRepository] hands back for it. *)
Definition detached_no_remote : Disk :=
  mkDisk true true "repo" 100 7 [main] "v1.0" [c3; c2; c1] [] 0
    None None None None None None.

Definition branchless : Mem Disk :=
  mkMem detached_no_remote ∅
    (RepoEntity.mk "r3p0s1t0" "repo" "/src/repo" 100 7 None [main]
       None [] (Some c3) [c3; c2; c1] Available).

(** A repository with a remote whose HEAD names no local branch. *)
Definition detached_repo : Disk :=
  mkDisk true true "repo" 100 7 [main] "v1.0" [c3; c2; c1]
    [Remote.mk "origin" None [origin_main]] 0 None None None None None None.

(** A repository whose history cannot be read: the loader of the commits
    answers an error and loads nothing. *)
Definition broken_log : Disk :=
  mkDisk true true "repo" 100 7 [main] "main" [] [] 0
    None (Some "object not found") None None None None.

(** The entity [InitializeRepository] hands back for [no_remote_repo]. *)
Definition remoteless : Mem Disk :=
  mkMem no_remote_repo ∅
    (RepoEntity.mk "r3p0s1t0" "repo" "/src/repo" 100 7 (Some main) [main]
       None [] (Some c3) [c3; c2; c1] Available).

(** The entity of [tracked], the directory since modified at time 250. *)
Definition modified : Mem Disk :=
  entity_of (touch 150 tracked).

(** ** Running the embedding symbolically *)

(** Case analysis on the innermost scrutinee of the goal. *)
Ltac destruct_scrutinee x :=
  lazymatch x with
  | context [match ?y with _ => _ end] => destruct_scrutinee y
  | _ => destruct x eqn:?
  end.

Ltac reduce := cbn beta iota zeta delta [app fst snd].

Ltac run_cases :=
  repeat (reduce;
          match goal with
          | |- context [match ?x with _ => _ end] => destruct_scrutinee x
          end);
  reduce.

Ltac use_equations :=
  repeat match goal with
         | H : _ = _ |- _ => rewrite H; simpl
         end.

(** ** Lemmas on [Refresh] *)

Section RefreshFacts.

Context {World : Type}.
Variable A : Helpers World.

Lemma Refresh_run (m : Mem World) :
  exists evs r m', Refresh A m = (evs, Ret r m') /\ Refresh_stops A m evs r m'.
Proof.
  unfold Refresh, bind, read, write, os_Open_, File_Stat_, git_PlainOpen_,
    loadLocalBranches_, loadCommits_, loadRemotes_, call, ret.
  run_cases.
  all: eexists _, _, _; (split; [reflexivity|]).
  all: econstructor; unfold stat, reopen, stored; use_equations; eauto.
Qed.

Lemma Refresh_stops_steps (m : Mem World) evs r m' :
  Refresh_stops A m evs r m' -> Forall (fun ev => refresh_step ev = true) evs.
Proof. destruct 1; repeat constructor. Qed.

(** A recorded call of [Refresh] returns, and leaves a trace of its entry,
    its sub-steps and its result. *)
Lemma Refresh_call_run (m : Mem World) :
  exists steps r m',
    Refresh_ A m = (refresh_call steps r, Ret r m') /\
    Refresh A m = (steps, Ret r m') /\
    Forall (fun ev => refresh_step ev = true) steps.
Proof.
  destruct (Refresh_run m) as (evs & r & m' & Hrun & Hstops).
  exists evs, r, m'. split; [|split]; trivial.
  - unfold Refresh_, bind, emit, ret. rewrite Hrun. simpl.
    reflexivity.
  - eapply Refresh_stops_steps; eauto.
Qed.

End RefreshFacts.

Arguments Refresh_ : simpl never.

Ltac unfold_ops :=
  unfold run, FetchThenMerge, Fetch, Merge, Pull, entity_Remote_Name,
    entity_Remote_Branch_Name, entity_Branch_Name, Checkout_, FetchWithGit_,
    MergeWithGit_, loadLocalBranches_, loadCommits_, loadRemotes_,
    getActiveBranch_, switchRemoteBranch_;
  unfold bind, read, write, deref, deref_Remote, call, emit, ret.

(** Replace every recorded call of [Refresh] by its trace and result. *)
Ltac resolve_Refresh :=
  repeat match goal with
         | H : Refresh_ ?A ?m = _ |- _ =>
             let steps := fresh "steps" in
             let rr := fresh "rr" in
             let mR := fresh "mR" in
             let HR := fresh "HR" in
             let HF := fresh "HF" in
             destruct (Refresh_call_run A m) as (steps & rr & mR & HR & _ & HF);
             rewrite HR in H; clear HR; inversion H; subst; clear H
         end.


(** ** The traces of [Fetch], [Merge] and [Pull] *)

(** Membership in a trace, case by case. *)
Ltac trace_cases H :=
  unfold refresh_call, fetch_trace, merge_trace in H;
  repeat first
    [ apply in_app_or in H
    | destruct H as [H|H]
    | apply in_inv in H ];
  try discriminate H; try contradiction.

Section Traces.

Context {World : Type}.
Variable A : Helpers World.

Lemma run_trace_shape op (m : Mem World) evs o :
  run A op m = (evs, o) -> trace_shape op evs (returned o).
Proof.
  destruct op; unfold_ops; run_cases; intros H; inversion H; subst; clear H.
  all: resolve_Refresh.
  all: rewrite ?app_nil_r; unfold returned; econstructor; assumption.
Qed.

Lemma step_not_adapter steps ev :
  Forall (fun ev => refresh_step ev = true) steps ->
  In ev steps -> adapter_failure ev = None /\ ev <> EvRefresh /\
  (forall r, ev <> EvRefreshReturn r).
Proof.
  intros HF Hin. rewrite List.Forall_forall in HF. specialize (HF _ Hin).
  destruct ev; try discriminate HF; repeat split; try discriminate; auto.
Qed.

End Traces.

(** An event that is no sub-step of [Refresh] is not among its sub-steps. *)
Ltac absurd_step :=
  match goal with
  | HF : Forall _ ?steps, Hin : In _ ?steps |- _ =>
      let Ha := fresh in
      let Hb := fresh in
      let Hc := fresh in
      destruct (step_not_adapter _ _ HF Hin) as (Ha & Hb & Hc);
      simpl in Ha; solve [discriminate | congruence | eapply Hc; eauto]
  end.

(** ** Errors and the refresh that follows them *)

(** C1 (as amended): when the adapter merge fails in [Merge] or [Pull], a
    [Refresh] is entered after the failed merge and before the merge error is
    returned; when the adapter fetch fails in [Fetch] or [Pull], the fetch
    error is returned and no [Refresh] is entered at all. *)
Theorem Refresh_follows_merge_failure_only {World} (A : Helpers World)
    op m evs r m' :
  run A op m = (evs, Ret r m') ->
  (forall n e, In (EvMergeWithGit n (Some e)) evs ->
     r = Some e /\
     exists pre post,
       evs = pre ++ EvMergeWithGit n (Some e) :: post /\ In EvRefresh post) /\
  (forall rm e, In (EvFetchWithGit rm (Some e)) evs ->
     r = Some e /\ ~ In EvRefresh evs).
Proof.
  intros Hrun. apply run_trace_shape in Hrun. simpl in Hrun.
  inversion Hrun; subst; (split; [intros n0 e0 Hin | intros rm0 e0 Hin]).
  all: trace_cases Hin; try absurd_step; inversion Hin; subst.
  all: split; [reflexivity|].
  all: try (intros Hr; trace_cases Hr; fail).
  all: first [ eexists [_], _; split; [reflexivity|]
             | eexists [_; _], _; split; [reflexivity|] ].
  all: unfold refresh_call; simpl; auto.
Qed.

Lemma Refresh_follows_merge_failure_only_witness :
  Merge sample merge_refused_dir_gone =
    ([EvCheckout (Some main) None;
      EvMergeWithGit "origin/main" (Some "merge failed");
      merge_trace "origin/main"; EvRefresh; EvOpen "/src/repo";
      EvStat (Some ErrInvalid); EvRefreshReturn (Some ErrInvalid)],
     Ret (Some "merge failed")
       (entity_of (touch 1 (disk merge_refused_dir_gone)))) /\
  exists pre post,
    [EvCheckout (Some main) None;
     EvMergeWithGit "origin/main" (Some "merge failed");
     merge_trace "origin/main"; EvRefresh; EvOpen "/src/repo";
     EvStat (Some ErrInvalid); EvRefreshReturn (Some ErrInvalid)] =
    pre ++ EvMergeWithGit "origin/main" (Some "merge failed") :: post /\
    In EvRefresh post.
Proof.
  assert (Hrun : run sample OpMerge merge_refused_dir_gone =
    ([EvCheckout (Some main) None;
      EvMergeWithGit "origin/main" (Some "merge failed");
      merge_trace "origin/main"; EvRefresh; EvOpen "/src/repo";
      EvStat (Some ErrInvalid); EvRefreshReturn (Some ErrInvalid)],
     Ret (Some "merge failed")
       (entity_of (touch 1 (disk merge_refused_dir_gone)))))
    by (vm_compute; reflexivity).
  split; [exact Hrun|].
  apply (Refresh_follows_merge_failure_only sample OpMerge _ _ _ _ Hrun).
  simpl. auto.
Defined.

(** C1 (counterexample): the fetch of [origin] is refused; [Fetch] returns
    the fetch error after the failed call and the line for the logger, and
    no [Refresh] was entered. *)
Lemma Fetch_failure_returns_without_Refresh :
  Fetch sample fetch_refused =
    ([EvFetchWithGit "origin" (Some "fetch failed"); fetch_trace "origin"],
     Ret (Some "fetch failed") fetch_refused) /\
  ~ In EvRefresh
      [EvFetchWithGit "origin" (Some "fetch failed"); fetch_trace "origin"] /\
  ~ Refresh_before_every_adapter_error sample.
Proof.
  assert (Hrun : run sample OpFetch fetch_refused =
    ([EvFetchWithGit "origin" (Some "fetch failed"); fetch_trace "origin"],
     Ret (Some "fetch failed") fetch_refused)) by (vm_compute; reflexivity).
  assert (Hno : ~ In EvRefresh
      [EvFetchWithGit "origin" (Some "fetch failed"); fetch_trace "origin"])
    by (intros Hin; trace_cases Hin).
  split; [exact Hrun|]. split; [exact Hno|].
  intros Hclaim.
  destruct (Hclaim OpFetch _ _ _ _
              (EvFetchWithGit "origin" (Some "fetch failed")) "fetch failed"
              Hrun (or_introl eq_refl) eq_refl)
    as (pre & post & Heq & Hin).
  apply Hno. rewrite Heq. apply in_or_app. right. right. exact Hin.
Qed.

(** ** What the caller receives *)

(** C3 (as amended): when the adapter merge fails in [Merge] or [Pull] and
    the [Refresh] that follows fails too, the caller receives the merge
    error, unchanged, and nothing else; the error of [Refresh] is dropped. *)
Theorem merge_error_is_all_the_caller_gets {World} (A : Helpers World)
    op m evs r m' n em er :
  run A op m = (evs, Ret r m') ->
  In (EvMergeWithGit n (Some em)) evs ->
  In (EvRefreshReturn (Some er)) evs ->
  r = Some em.
Proof.
  intros Hrun Hin _. apply run_trace_shape in Hrun. simpl in Hrun.
  inversion Hrun; subst.
  all: trace_cases Hin; try absurd_step; inversion Hin; subst.
  all: reflexivity.
Qed.

Lemma merge_error_is_all_the_caller_gets_witness :
  exists evs r m',
    Pull sample merge_refused_dir_gone = (evs, Ret r m') /\
    In (EvMergeWithGit "origin/main" (Some "merge failed")) evs /\
    In (EvRefreshReturn (Some ErrInvalid)) evs /\
    r = Some "merge failed".
Proof.
  assert (Hrun : run sample OpPull merge_refused_dir_gone =
    ([EvFetchWithGit "origin" None; EvCheckout (Some main) None;
      EvMergeWithGit "origin/main" (Some "merge failed");
      merge_trace "origin/main"; EvRefresh; EvOpen "/src/repo";
      EvStat (Some ErrInvalid); EvRefreshReturn (Some ErrInvalid)],
     Ret (Some "merge failed")
       (entity_of (touch 2 (disk merge_refused_dir_gone)))))
    by (vm_compute; reflexivity).
  eexists _, _, _. split; [exact Hrun|].
  split; [simpl; auto 10|]. split; [simpl; auto 10|].
  apply (merge_error_is_all_the_caller_gets sample OpPull _ _ _ _
           "origin/main" "merge failed" ErrInvalid Hrun); simpl; auto 10.
Defined.

(** C3 (counterexample): the merge conflicts and the directory has vanished,
    so the [Refresh] after the failed merge fails with [ErrInvalid]; [Merge]
    hands back the merge error alone. *)
Lemma Merge_drops_the_Refresh_error :
  Refresh sample merge_refused_dir_gone =
    ([EvOpen "/src/repo"; EvStat (Some ErrInvalid)],
     Ret (Some ErrInvalid) merge_refused_dir_gone) /\
  Merge sample merge_refused_dir_gone =
    ([EvCheckout (Some main) None;
      EvMergeWithGit "origin/main" (Some "merge failed");
      merge_trace "origin/main"; EvRefresh; EvOpen "/src/repo";
      EvStat (Some ErrInvalid); EvRefreshReturn (Some ErrInvalid)],
     Ret (Some "merge failed")
       (entity_of (touch 1 (disk merge_refused_dir_gone)))) /\
  ~ surfaced (Some "merge failed") ErrInvalid /\
  ~ Refresh_failure_surfaced sample.
Proof.
  assert (Hrun : run sample OpMerge merge_refused_dir_gone =
    ([EvCheckout (Some main) None;
      EvMergeWithGit "origin/main" (Some "merge failed");
      merge_trace "origin/main"; EvRefresh; EvOpen "/src/repo";
      EvStat (Some ErrInvalid); EvRefreshReturn (Some ErrInvalid)],
     Ret (Some "merge failed")
       (entity_of (touch 1 (disk merge_refused_dir_gone)))))
    by (vm_compute; reflexivity).
  assert (Hno : ~ surfaced (Some "merge failed") ErrInvalid).
  { intros (t & Ht & Hin). injection Ht as <-. apply Hin.
    vm_compute. reflexivity. }
  split; [vm_compute; reflexivity|]. split; [exact Hrun|].
  split; [exact Hno|].
  intros Hclaim. apply Hno.
  eapply (Hclaim OpMerge _ _ _ _ "origin/main" "merge failed" ErrInvalid Hrun);
    simpl; auto 10.
Qed.

(** C10: what [Fetch], [Merge] and [Pull] return is the error of the failed
    [FetchWithGit] or [MergeWithGit] call, and nil when neither failed; the
    results of the [Checkout] calls and of [Refresh] are dropped, so an
    operation returns nil also when they failed. *)
Theorem Checkout_and_Refresh_errors_are_dropped {World} (A : Helpers World)
    op m evs r m' :
  run A op m = (evs, Ret r m') ->
  r = adapter_error evs.
Proof.
  intros Hrun. apply run_trace_shape in Hrun. simpl in Hrun.
  assert (Hsteps : forall steps rest,
             Forall (fun ev => refresh_step ev = true) steps ->
             adapter_error (steps ++ rest) = adapter_error rest).
  { induction steps as [|ev steps IH]; intros rest HF; [reflexivity|].
    inversion HF as [|? ? Hev HF']; subst. simpl.
    destruct ev; try discriminate Hev; apply IH; assumption. }
  inversion Hrun; subst; unfold refresh_call, merge_trace, fetch_trace; simpl.
  all: rewrite <- ?app_assoc, ?Hsteps by assumption; reflexivity.
Qed.

Lemma Checkout_and_Refresh_errors_are_dropped_witness :
  (Fetch sample checkout_refused_dir_gone =
     ([EvFetchWithGit "origin" None; EvRefresh; EvOpen "/src/repo";
       EvStat (Some ErrInvalid); EvRefreshReturn (Some ErrInvalid);
       EvCheckout (Some main) (Some "checkout failed")],
      Ret None (entity_of (touch 1 (disk checkout_refused_dir_gone)))) /\
   None =
     adapter_error
       [EvFetchWithGit "origin" None; EvRefresh; EvOpen "/src/repo";
        EvStat (Some ErrInvalid); EvRefreshReturn (Some ErrInvalid);
        EvCheckout (Some main) (Some "checkout failed")]) /\
  (Merge sample checkout_refused_dir_gone =
     ([EvCheckout (Some main) (Some "checkout failed");
       EvMergeWithGit "origin/main" None; EvRefresh; EvOpen "/src/repo";
       EvStat (Some ErrInvalid); EvRefreshReturn (Some ErrInvalid)],
      Ret None (entity_of (touch 1 (disk checkout_refused_dir_gone)))) /\
   None =
     adapter_error
       [EvCheckout (Some main) (Some "checkout failed");
        EvMergeWithGit "origin/main" None; EvRefresh; EvOpen "/src/repo";
        EvStat (Some ErrInvalid); EvRefreshReturn (Some ErrInvalid)]) /\
  (Pull sample checkout_refused_dir_gone =
     ([EvFetchWithGit "origin" None;
       EvCheckout (Some main) (Some "checkout failed");
       EvMergeWithGit "origin/main" None; EvRefresh; EvOpen "/src/repo";
       EvStat (Some ErrInvalid); EvRefreshReturn (Some ErrInvalid);
       EvCheckout (Some main) (Some "checkout failed")],
      Ret None (entity_of (touch 2 (disk checkout_refused_dir_gone)))) /\
   None =
     adapter_error
       [EvFetchWithGit "origin" None;
        EvCheckout (Some main) (Some "checkout failed");
        EvMergeWithGit "origin/main" None; EvRefresh; EvOpen "/src/repo";
        EvStat (Some ErrInvalid); EvRefreshReturn (Some ErrInvalid);
        EvCheckout (Some main) (Some "checkout failed")]).
Proof.
  assert (HF : run sample OpFetch checkout_refused_dir_gone =
     ([EvFetchWithGit "origin" None; EvRefresh; EvOpen "/src/repo";
       EvStat (Some ErrInvalid); EvRefreshReturn (Some ErrInvalid);
       EvCheckout (Some main) (Some "checkout failed")],
      Ret None (entity_of (touch 1 (disk checkout_refused_dir_gone)))))
    by (vm_compute; reflexivity).
  assert (HM : run sample OpMerge checkout_refused_dir_gone =
     ([EvCheckout (Some main) (Some "checkout failed");
       EvMergeWithGit "origin/main" None; EvRefresh; EvOpen "/src/repo";
       EvStat (Some ErrInvalid); EvRefreshReturn (Some ErrInvalid)],
      Ret None (entity_of (touch 1 (disk checkout_refused_dir_gone)))))
    by (vm_compute; reflexivity).
  assert (HP : run sample OpPull checkout_refused_dir_gone =
     ([EvFetchWithGit "origin" None;
       EvCheckout (Some main) (Some "checkout failed");
       EvMergeWithGit "origin/main" None; EvRefresh; EvOpen "/src/repo";
       EvStat (Some ErrInvalid); EvRefreshReturn (Some ErrInvalid);
       EvCheckout (Some main) (Some "checkout failed")],
      Ret None (entity_of (touch 2 (disk checkout_refused_dir_gone)))))
    by (vm_compute; reflexivity).
  split; [|split].
  - split; [exact HF|].
    exact (Checkout_and_Refresh_errors_are_dropped sample OpFetch _ _ _ _ HF).
  - split; [exact HM|].
    exact (Checkout_and_Refresh_errors_are_dropped sample OpMerge _ _ _ _ HM).
  - split; [exact HP|].
    exact (Checkout_and_Refresh_errors_are_dropped sample OpPull _ _ _ _ HP).
Defined.

(** ** [Refresh] *)

(** C7 (as amended): [Refresh] stats the directory, then re-opens the
    repository, stores the handle and the modification time once both have
    succeeded, and then reloads branches, commits and remotes in that order.
    It always returns; the error it returns is that of the first sub-step
    that failed, no later sub-step is called, and the memory is the one that
    sub-step left: untouched when the stat or the open failed, and holding
    what the earlier sub-steps stored when a load failed. *)
Theorem Refresh_stops_at_first_failure {World} (A : Helpers World)
    (m : Mem World) :
  exists evs r m',
    Refresh A m = (evs, Ret r m') /\ Refresh_stops A m evs r m'.
Proof. exact (Refresh_run A m). Qed.

(** C7 (counterexample): with the directory gone both the stat and the open
    fail; [Refresh] returns the error of the stat and never calls
    [git.PlainOpen], where the stated order returns the error of the open.
    With the repository damaged the stat succeeds and the open fails;
    [Refresh] leaves the modification time of the entity at 100 although
    250 was read. *)
Lemma Refresh_is_not_as_stated :
  (Refresh sample dir_gone =
     ([EvOpen "/src/repo"; EvStat (Some ErrInvalid)],
      Ret (Some ErrInvalid) dir_gone) /\
   Refresh_as_stated sample dir_gone =
     ([EvPlainOpen "/src/repo" (Some "repository does not exist")],
      Ret (Some "repository does not exist") dir_gone) /\
   Refresh sample dir_gone <> Refresh_as_stated sample dir_gone) /\
  (stat sample repo_damaged = inl (FileInfo.mk "repo" 250) /\
   Refresh sample repo_damaged =
     ([EvOpen "/src/repo"; EvStat None;
       EvPlainOpen "/src/repo" (Some "repository does not exist")],
      Ret (Some "repository does not exist") repo_damaged) /\
   RepoEntity.ModTime (entity repo_damaged) = 100%Z /\
   Refresh sample repo_damaged <>
     Refresh_as_stated_stat_first sample repo_damaged).
Proof.
  repeat split; try (vm_compute; reflexivity).
  all: vm_compute; discriminate.
Qed.

(** ** Nil pointers *)

(** [Fetch] reads [entity.Remote.Name] and no other pointer: it returns as
    soon as [entity.Remote] is not nil. *)
Lemma Fetch_returns_with_Remote {World} (A : Helpers World) (m : Mem World) :
  has_Remote m -> exists evs r m', Fetch A m = (evs, Ret r m').
Proof.
  intros (l & r & Hl & Hr). unfold_ops. rewrite Hl, Hr. run_cases.
  all: resolve_Refresh; eauto.
Qed.

(** C2 (as amended): when [entity.Remote], [entity.Branch] and the [Branch]
    of that remote are not nil, and [FetchWithGit], [Checkout] and
    [MergeWithGit] leave the remote and its branch so, each of [Fetch],
    [Merge] and [Pull] returns without a nil dereference.  ([entity.Branch]
    is handed to [Checkout] and not read by the three functions.) *)
Theorem operations_return_with_Remote_Branch {World} (A : Helpers World)
    (m : Mem World) op :
  has_Remote_Branch m ->
  RepoEntity.Branch (entity m) <> None ->
  (forall rm, preserves has_Remote_Branch (FetchWithGit A rm)) ->
  (forall b, preserves has_Remote_Branch (Checkout A b)) ->
  (forall n, preserves has_Remote_Branch (MergeWithGit A n)) ->
  exists evs r m', run A op m = (evs, Ret r m').
Proof.
  intros Hm _ HF HC HM.
  destruct op; unfold_ops; run_cases.
  all: resolve_Refresh; eauto.
  all: exfalso.
  all: repeat match goal with
         | H : FetchWithGit _ ?rm ?m0 = (?m1, _), Hm0 : has_Remote_Branch ?m0
           |- _ =>
             let X := fresh "Hm" in
             pose proof (HF rm m0 Hm0) as X; rewrite H in X; simpl in X;
             clear H
         | H : Checkout _ ?b ?m0 = (?m1, _), Hm0 : has_Remote_Branch ?m0
           |- _ =>
             let X := fresh "Hm" in
             pose proof (HC b m0 Hm0) as X; rewrite H in X; simpl in X;
             clear H
         | H : MergeWithGit _ ?n ?m0 = (?m1, _), Hm0 : has_Remote_Branch ?m0
           |- _ =>
             let X := fresh "Hm" in
             pose proof (HM n m0 Hm0) as X; rewrite H in X; simpl in X;
             clear H
         end.
  all: repeat match goal with
         | Hm0 : has_Remote_Branch _ |- _ =>
             let l := fresh "l" in
             let r := fresh "r" in
             let rb := fresh "rb" in
             destruct Hm0 as (l & r & rb & ? & ? & ?)
         end.
  all: congruence.
Qed.

Lemma sample_action_cached err (m : Mem Disk) :
  cached (sample_action err m).1 = cached m.
Proof. unfold sample_action, cached. destruct (err (disk m)); reflexivity. Qed.

Lemma sample_action_preserves err :
  preserves has_Remote_Branch (sample_action err).
Proof.
  intros m (l & r & rb & Hl & Hr & Hb).
  pose proof (sample_action_cached err m) as Hc. unfold cached in Hc.
  injection Hc as He Hh. exists l, r, rb. rewrite He, Hh. auto.
Qed.

Lemma entity_of_has_Remote_Branch w : has_Remote_Branch (entity_of w).
Proof.
  exists 0, (Remote.mk "origin" (Some origin_main) [origin_main]), origin_main.
  split; [reflexivity|]. split; [apply lookup_singleton_eq|reflexivity].
Qed.

Lemma operations_return_with_Remote_Branch_witness :
  has_Remote_Branch (entity_of tracked) /\
  RepoEntity.Branch (entity (entity_of tracked)) = Some main /\
  forall op, exists evs r m', run sample op (entity_of tracked) = (evs, Ret r m').
Proof.
  split; [apply entity_of_has_Remote_Branch|]. split; [reflexivity|].
  intros op.
  apply (operations_return_with_Remote_Branch sample (entity_of tracked) op).
  - apply entity_of_has_Remote_Branch.
  - discriminate.
  - intros rm. apply sample_action_preserves.
  - intros b. apply sample_action_preserves.
  - intros n. apply sample_action_preserves.
Defined.

(** C2 (counterexample): [origin] has no branch [origin/main], so
    [InitializeRepository] leaves [entity.Remote.Branch] nil with
    [entity.Remote] and [entity.Branch] set; on that entity [Merge] and
    [Pull] panic at [entity.Remote.Branch.Name]. *)
Lemma Merge_panics_without_Remote_Branch :
  InitializeRepository sample "/src/repo" (repo [origin_dev]) ∅ =
    inr ([EvLoadLocalBranches None; EvLoadCommits None; EvLoadRemotes None;
          EvSwitchRemoteBranch "origin/main"
            (Some (errors_New "Remote branch not found."))],
         Ret None untracked) /\
  has_Remote untracked /\
  RepoEntity.Branch (entity untracked) = Some main /\
  Merge sample untracked =
    ([EvCheckout (Some main) None],
     Panic (loaded None [origin_dev] (touch 1 (disk untracked)))) /\
  Pull sample untracked =
    ([EvFetchWithGit "origin" None; EvCheckout (Some main) None],
     Panic (loaded None [origin_dev] (touch 2 (disk untracked)))) /\
  ~ safe_with_Remote_and_Branch sample.
Proof.
  assert (HR : has_Remote untracked).
  { exists 0, (Remote.mk "origin" None [origin_dev]). split; [reflexivity|].
    apply lookup_singleton_eq. }
  assert (HM : Merge sample untracked =
    ([EvCheckout (Some main) None],
     Panic (loaded None [origin_dev] (touch 1 (disk untracked)))))
    by (vm_compute; reflexivity).
  split; [vm_compute; reflexivity|]. split; [exact HR|].
  split; [reflexivity|]. split; [exact HM|].
  split; [vm_compute; reflexivity|].
  intros Hclaim. apply (Hclaim OpMerge untracked HR); [discriminate|].
  simpl. rewrite HM. reflexivity.
Qed.

(** ** [Pull] *)

(** C6: when the remote-level fetch of [Pull] fails, [Pull] returns the fetch
    error at once: its trace holds the failed fetch and the line for the
    logger, no checkout, no merge and no [Refresh]; the memory is the one the
    failed fetch left, so every field of the entity is as before the call
    (the fetch itself, written elsewhere, leaving the cached state alone). *)
Theorem Pull_returns_at_failed_fetch {World} (A : Helpers World)
    (m m1 : Mem World) l remote e :
  RepoEntity.Remote (entity m) = Some l ->
  heap m !! l = Some remote ->
  FetchWithGit A (Remote.Name remote) m = (m1, Some e) ->
  cached m1 = cached m ->
  exists m',
    Pull A m =
      ([EvFetchWithGit (Remote.Name remote) (Some e);
        fetch_trace (Remote.Name remote)], Ret (Some e) m') /\
    entity m' = entity m /\ heap m' = heap m.
Proof.
  intros Hl Hr Hfetch Hcached. exists m1.
  unfold_ops. rewrite Hl, Hr. reduce. rewrite Hfetch. reduce.
  unfold cached in Hcached. injection Hcached as He Hh. auto.
Qed.

Lemma Pull_returns_at_failed_fetch_witness :
  exists m',
    Pull sample fetch_refused =
      ([EvFetchWithGit "origin" (Some "fetch failed"); fetch_trace "origin"],
       Ret (Some "fetch failed") m') /\
    entity m' = entity fetch_refused /\ heap m' = heap fetch_refused.
Proof.
  apply (Pull_returns_at_failed_fetch sample fetch_refused fetch_refused 0
           (Remote.mk "origin" (Some origin_main) [origin_main])
           "fetch failed").
  - reflexivity.
  - apply lookup_singleton_eq.
  - vm_compute. reflexivity.
  - reflexivity.
Defined.

(** [Pull] is the remote-level fetch, [Merge], and one more [Checkout] of
    [entity.Branch] whose result is dropped. *)
Lemma Pull_decomposed {World} (A : Helpers World) (m m1 : Mem World) evs :
  FetchThenMerge A m = (evs, Ret None m1) ->
  Pull A m =
    (evs ++ [EvCheckout (RepoEntity.Branch (entity m1))
               (Checkout A (RepoEntity.Branch (entity m1)) m1).2],
     Ret None (Checkout A (RepoEntity.Branch (entity m1)) m1).1).
Proof.
  unfold_ops. run_cases.
  all: intros H; inversion H; subst; clear H.
  all: rewrite ?app_nil_r, <- ?app_assoc; simpl;
       repeat match goal with H : _ = _ |- _ => rewrite H; clear H end;
       reflexivity.
Qed.

(** C5: when the remote-level fetch and the merge both succeed, [Pull] ends
    with the entity in the state that the remote-level fetch followed by
    [Merge] ends in (the last [Checkout] of [Pull], a checkout of the branch
    that is already checked out, leaving the cached state alone). *)
Theorem Pull_is_fetch_then_Merge {World} (A : Helpers World)
    (m m1 : Mem World) evs :
  FetchThenMerge A m = (evs, Ret None m1) ->
  cached (Checkout A (RepoEntity.Branch (entity m1)) m1).1 = cached m1 ->
  exists evs' m2,
    Pull A m = (evs', Ret None m2) /\
    entity m2 = entity m1 /\ heap m2 = heap m1.
Proof.
  intros Hrun Hcached. rewrite (Pull_decomposed A m m1 evs Hrun).
  eexists _, _. split; [reflexivity|].
  unfold cached in Hcached. injection Hcached as He Hh. auto.
Qed.

Lemma Pull_is_fetch_then_Merge_witness :
  FetchThenMerge sample (entity_of tracked) =
    ([EvFetchWithGit "origin" None; EvCheckout (Some main) None;
      EvMergeWithGit "origin/main" None; EvRefresh; EvOpen "/src/repo";
      EvStat None; EvPlainOpen "/src/repo" None; EvLoadLocalBranches None;
      EvLoadCommits None; EvLoadRemotes None; EvRefreshReturn None],
     Ret None after_merge) /\
  exists evs' m2,
    Pull sample (entity_of tracked) = (evs', Ret None m2) /\
    entity m2 = entity after_merge /\ heap m2 = heap after_merge.
Proof.
  assert (Hrun : FetchThenMerge sample (entity_of tracked) =
    ([EvFetchWithGit "origin" None; EvCheckout (Some main) None;
      EvMergeWithGit "origin/main" None; EvRefresh; EvOpen "/src/repo";
      EvStat None; EvPlainOpen "/src/repo" None; EvLoadLocalBranches None;
      EvLoadCommits None; EvLoadRemotes None; EvRefreshReturn None],
     Ret None after_merge)) by (vm_compute; reflexivity).
  split; [exact Hrun|].
  apply (Pull_is_fetch_then_Merge sample (entity_of tracked) after_merge _ Hrun).
  apply sample_action_cached.
Defined.

(** ** Fields that the operations leave alone *)

(** What a method written elsewhere keeps, it keeps at each of its calls. *)
Ltac use_keeps :=
  repeat match goal with
         | Hk : keeps _ ?f, H : ?f ?m0 = (_, _) |- _ =>
             let X := fresh "Hkept" in
             pose proof (Hk m0) as X; rewrite H in X; simpl in X; clear H
         | Hk : forall x, keeps _ (?f x), H : ?f ?x ?m0 = (_, _) |- _ =>
             let X := fresh "Hkept" in
             pose proof (Hk x m0) as X; rewrite H in X; simpl in X; clear H
         end.

(** Reading a field of the goal after the assignments made by this file. *)
Ltac reduce_fields :=
  unfold with_heap, with_entity, RepoEntity.set_ModTime,
    RepoEntity.set_Repository, RepoEntity.set_Branch, RepoEntity.set_Remote,
    RepoEntity.set_Commit;
  cbn [heap entity disk RepoEntity.RepoID RepoEntity.Name RepoEntity.AbsPath
       RepoEntity.ModTime RepoEntity.Repository RepoEntity.Branch
       RepoEntity.Branches RepoEntity.Remote RepoEntity.Remotes
       RepoEntity.Commit RepoEntity.Commits RepoEntity.State].

(** Reading a field after the assignments made by this file. *)
Ltac unfold_fields :=
  unfold identity_of, cached, with_heap, with_entity, RepoEntity.identity,
    RepoEntity.set_ModTime, RepoEntity.set_Repository, RepoEntity.set_Branch,
    RepoEntity.set_Remote, RepoEntity.set_Commit in *;
  simpl in *.

Section Frame.

Context {World : Type}.
Variable A : Helpers World.
Hypothesis Hkeep : Helpers_keep A identity_of.

Lemma Refresh_keeps_identity (m : Mem World) :
  identity_of (final (Refresh A m).2) = identity_of m.
Proof.
  destruct Hkeep as (Hlb & Hlc & Hlr & _).
  destruct (Refresh_run A m) as (evs & r & m' & Hrun & Hstops).
  rewrite Hrun. simpl. destruct Hstops; use_keeps; try reflexivity.
  all: unfold stored in *; unfold_fields; congruence.
Qed.

Lemma run_keeps_identity op (m : Mem World) :
  identity_of (final (run A op m).2) = identity_of m.
Proof.
  destruct Hkeep as (Hlb & Hlc & Hlr & Hco & Hfe & Hme).
  destruct op; unfold_ops; run_cases; try reflexivity.
  all: repeat match goal with
         | H : Refresh_ A ?m0 = _ |- _ =>
             let steps := fresh "steps" in
             let rr := fresh "rr" in
             let mR := fresh "mR" in
             let HR := fresh "HR" in
             let HR' := fresh "HR" in
             let X := fresh "Hkept" in
             destruct (Refresh_call_run A m0)
               as (steps & rr & mR & HR & HR' & _);
             rewrite HR in H; clear HR; inversion H; subst; clear H;
             pose proof (Refresh_keeps_identity m0) as X;
             rewrite HR' in X; simpl in X; clear HR'
         end.
  all: use_keeps; unfold_fields; congruence.
Qed.

Lemma InitializeRepository_fill_keeps_identity directory (m : Mem World) :
  identity_of (final (InitializeRepository_fill A directory m).2) =
  identity_of m.
Proof.
  destruct Hkeep as (Hlb & Hlc & Hlr & _).
  unfold InitializeRepository_fill. unfold_ops. run_cases.
  all: use_keeps; unfold_fields; congruence.
Qed.

End Frame.

(** C8: provided the methods written in other files leave [RepoID], [Name],
    [AbsPath] and [State] alone, [Fetch], [Merge], [Pull] and [Refresh] end
    with these four fields as they found them, and the entity that
    [InitializeRepository] hands back has [State = Available]. *)
Theorem identity_and_State_are_left_alone {World} (A : Helpers World) :
  Helpers_keep A identity_of ->
  (forall op m, identity_of (final (run A op m).2) = identity_of m) /\
  (forall m, identity_of (final (Refresh A m).2) = identity_of m) /\
  (forall directory w h evs o,
     InitializeRepository A directory w h = inr (evs, o) ->
     RepoEntity.State (entity (final o)) = Available /\
     RepoEntity.AbsPath (entity (final o)) = directory).
Proof.
  intros Hkeep. split; [|split].
  - intros op m. apply run_keeps_identity, Hkeep.
  - intros m. apply Refresh_keeps_identity, Hkeep.
  - intros directory w h evs o. unfold InitializeRepository.
    destruct (os_Open A w directory) as [file|]; [|discriminate].
    destruct (File_Stat A w file) as [fileInfo|]; [|discriminate].
    destruct (git_PlainOpen A w directory) as [r|]; [|discriminate].
    intros Hrun. injection Hrun as Hrun.
    pose proof (InitializeRepository_fill_keeps_identity A Hkeep directory
                  (mkMem w h (new_entity A directory w fileInfo r))) as Hid.
    rewrite Hrun in Hid. unfold identity_of, RepoEntity.identity in Hid.
    simpl in Hid. injection Hid as _ _ Hpath Hstate. auto.
Qed.

Lemma sample_action_keeps_identity err :
  keeps identity_of (sample_action err).
Proof.
  intros m. pose proof (sample_action_cached err m) as Hc.
  unfold cached in Hc. injection Hc as He _. unfold identity_of.
  now rewrite He.
Qed.

Lemma sample_keeps_identity : Helpers_keep sample identity_of.
Proof.
  repeat split; intros; try reflexivity.
  all: apply sample_action_keeps_identity.
Qed.

Lemma identity_and_State_are_left_alone_witness :
  Helpers_keep sample identity_of /\
  identity_of (final (run sample OpPull (entity_of tracked)).2) =
    ("r3p0s1t0", "repo", "/src/repo", Available) /\
  identity_of (final (Refresh sample repo_damaged).2) =
    ("r3p0s1t0", "repo", "/src/repo", Available).
Proof.
  split; [exact sample_keeps_identity|].
  destruct (identity_and_State_are_left_alone sample sample_keeps_identity)
    as (Hrun & Hrefresh & _).
  split.
  - exact (Hrun OpPull (entity_of tracked)).
  - exact (Hrefresh repo_damaged).
Defined.

(** ** [InitializeRepository] *)

(** C4 (as amended): on a directory that opens as a repository, in both
    partial failures [InitializeRepository] returns, and returns an entity.
    When no commit was loaded it hands the entity back with the error
    "There is no commit for this repository", [Commits] empty and [Commit]
    nil.  When commits were loaded and no remote, it hands it back with the
    error "There is no remote for this repository", [Remote] nil and
    [Branch] holding what [getActiveBranch] answered, be it a branch or nil.
    (The loaders, written elsewhere, are taken to leave [Commit] and
    [Remote] alone.) *)
Theorem InitializeRepository_partial_failure {World} (A : Helpers World)
    directory w h file fileInfo r m1 e1 m2 e2 :
  os_Open A w directory = inl file ->
  File_Stat A w file = inl fileInfo ->
  git_PlainOpen A w directory = inl r ->
  loadLocalBranches A (mkMem w h (new_entity A directory w fileInfo r))
    = (m1, e1) ->
  loadCommits A m1 = (m2, e2) ->
  keeps (fun m => RepoEntity.Commit (entity m)) (loadLocalBranches A) ->
  keeps (fun m => RepoEntity.Commit (entity m)) (loadCommits A) ->
  keeps (fun m => RepoEntity.Remote (entity m)) (loadLocalBranches A) ->
  keeps (fun m => RepoEntity.Remote (entity m)) (loadCommits A) ->
  keeps (fun m => RepoEntity.Remote (entity m)) (loadRemotes A) ->
  (RepoEntity.Commits (entity m2) = [] ->
   InitializeRepository A directory w h =
     inr ([EvLoadLocalBranches e1; EvLoadCommits e2],
          Ret (Some (errors_New
                 ("There is no commit for this repository: " +:+ directory)))
              m2) /\
   RepoEntity.Commits (entity m2) = [] /\
   RepoEntity.Commit (entity m2) = None) /\
  (forall c cs m3 e3,
     RepoEntity.Commits (entity m2) = c :: cs ->
     loadRemotes A (with_entity (RepoEntity.set_Commit (Some c)) m2)
       = (m3, e3) ->
     RepoEntity.Remotes (entity m3) = [] ->
     exists m4,
       InitializeRepository A directory w h =
         inr ([EvLoadLocalBranches e1; EvLoadCommits e2; EvLoadRemotes e3],
              Ret (Some (errors_New
                     ("There is no remote for this repository: "
                      +:+ directory))) m4) /\
       RepoEntity.Branch (entity m4) = getActiveBranch A m3 /\
       RepoEntity.Remote (entity m4) = None).
Proof.
  intros Hopen Hstat Hrepo Hlb Hlc Kc1 Kc2 Kr1 Kr2 Kr3.
  unfold InitializeRepository. rewrite Hopen, Hstat, Hrepo.
  unfold InitializeRepository_fill. unfold_ops. rewrite Hlb. reduce.
  rewrite Hlc. reduce.
  pose proof (Kc1 (mkMem w h (new_entity A directory w fileInfo r))) as Hc1.
  pose proof (Kc2 m1) as Hc2.
  pose proof (Kr1 (mkMem w h (new_entity A directory w fileInfo r))) as Hr1.
  pose proof (Kr2 m1) as Hr2.
  rewrite Hlb in Hc1, Hr1. rewrite Hlc in Hc2, Hr2. simpl in *.
  split.
  - intros Hnone. rewrite Hnone. reduce.
    split; [reflexivity|]. split; [reflexivity|congruence].
  - intros c cs m3 e3 Hsome Hlr Hnoremote.
    rewrite Hsome. reduce. rewrite Hlr. reduce.
    simpl. rewrite Hnoremote. reduce.
    eexists. split; [reflexivity|]. simpl.
    pose proof (Kr3 (with_entity (RepoEntity.set_Commit (Some c)) m2)) as Hr3.
    rewrite Hlr in Hr3. simpl in Hr3.
    split; [reflexivity|congruence].
Qed.

Lemma InitializeRepository_partial_failure_witness :
  (InitializeRepository sample "/src/repo" empty_repo ∅ =
     inr ([EvLoadLocalBranches None; EvLoadCommits None],
          Ret (Some "There is no commit for this repository: /src/repo")
            (mkMem empty_repo ∅
               (new_entity sample "/src/repo" empty_repo
                  (FileInfo.mk "repo" 100) 7))) /\
   RepoEntity.Commits
     (new_entity sample "/src/repo" empty_repo (FileInfo.mk "repo" 100) 7)
   = [] /\
   RepoEntity.Commit
     (new_entity sample "/src/repo" empty_repo (FileInfo.mk "repo" 100) 7)
   = None) /\
  exists m4,
    InitializeRepository sample "/src/repo" no_remote_repo ∅ =
      inr ([EvLoadLocalBranches None; EvLoadCommits None; EvLoadRemotes None],
           Ret (Some "There is no remote for this repository: /src/repo") m4)
    /\ RepoEntity.Branch (entity m4) = Some main
    /\ RepoEntity.Remote (entity m4) = None.
Proof.
  split.
  - refine (proj1 (InitializeRepository_partial_failure sample "/src/repo"
                     empty_repo ∅ 3 (FileInfo.mk "repo" 100) 7 _ None _ None
                     eq_refl eq_refl eq_refl eq_refl eq_refl _ _ _ _ _) _);
      try (intros m; reflexivity).
    reflexivity.
  - refine (proj2 (InitializeRepository_partial_failure sample
                     "/src/repo" no_remote_repo ∅ 3 (FileInfo.mk "repo" 100)
                     7 _ None _ None eq_refl eq_refl eq_refl eq_refl eq_refl
                     _ _ _ _ _)
                  c3 [c2; c1] _ None eq_refl eq_refl eq_refl);
      intros m; reflexivity.
Defined.

(** C4 (counterexample): the repository has three commits and no remote,
    and its HEAD names no local branch.  [InitializeRepository] hands back
    the entity with the error "There is no remote for this repository",
    [Remote] nil, and [Branch] nil: line 87 stores what [getActiveBranch]
    answers, and nothing checks it. *)
Lemma NoRemote_entity_with_nil_Branch :
  InitializeRepository sample "/src/repo" detached_no_remote ∅ =
    inr ([EvLoadLocalBranches None; EvLoadCommits None; EvLoadRemotes None],
         Ret (Some "There is no remote for this repository: /src/repo")
           branchless) /\
  RepoEntity.Commits (entity branchless) = [c3; c2; c1] /\
  RepoEntity.Remotes (entity branchless) = [] /\
  RepoEntity.Remote (entity branchless) = None /\
  RepoEntity.Branch (entity branchless) = None /\
  ~ NoRemote_entity_has_Branch sample.
Proof.
  assert (Hrun : InitializeRepository sample "/src/repo" detached_no_remote ∅ =
    inr ([EvLoadLocalBranches None; EvLoadCommits None; EvLoadRemotes None],
         Ret (Some "There is no remote for this repository: /src/repo")
           branchless)) by (vm_compute; reflexivity).
  split; [exact Hrun|]. repeat (split; [reflexivity|]).
  intros Hclaim.
  destruct (Hclaim "/src/repo" detached_no_remote ∅ _ branchless Hrun)
    as [Hbranch _]; [discriminate|].
  apply Hbranch. reflexivity.
Qed.

(** A remote with no branch of the name asked for: the selection fails and
    the remote is as it was. *)
Lemma switchRemoteBranch_miss remote name :
  (forall rb, In rb (Remote.Branches remote) -> RemoteBranch.Name rb <> name) ->
  switchRemoteBranch remote name =
    (remote, Some (errors_New "Remote branch not found.")).
Proof.
  intros Hmiss. unfold switchRemoteBranch.
  destruct (find _ (Remote.Branches remote)) as [rb|] eqn:Hfind; [|reflexivity].
  apply find_some in Hfind. destruct Hfind as [Hin Heq].
  apply String.eqb_eq in Heq. exfalso. exact (Hmiss rb Hin Heq).
Qed.

(** C9: commits and at least one remote were loaded and the active branch is
    [b]; when the first remote has no remote-tracking branch named
    [<remote>/<b>], [InitializeRepository] returns the entity with a nil
    error, [entity.Remote] is the first of [entity.Remotes], and that remote
    is as it was before the attempt, its [Branch] included. *)
Theorem missing_tracking_branch_is_not_an_error {World} (A : Helpers World)
    directory w h file fileInfo r m1 e1 m2 e2 c cs m3 e3 l ls remote b :
  os_Open A w directory = inl file ->
  File_Stat A w file = inl fileInfo ->
  git_PlainOpen A w directory = inl r ->
  loadLocalBranches A (mkMem w h (new_entity A directory w fileInfo r))
    = (m1, e1) ->
  loadCommits A m1 = (m2, e2) ->
  RepoEntity.Commits (entity m2) = c :: cs ->
  loadRemotes A (with_entity (RepoEntity.set_Commit (Some c)) m2) = (m3, e3) ->
  RepoEntity.Remotes (entity m3) = l :: ls ->
  heap m3 !! l = Some remote ->
  getActiveBranch A m3 = Some b ->
  (forall rb, In rb (Remote.Branches remote) ->
     RemoteBranch.Name rb <> Remote.Name remote +:+ "/" +:+ Branch.Name b) ->
  exists m4,
    InitializeRepository A directory w h =
      inr ([EvLoadLocalBranches e1; EvLoadCommits e2; EvLoadRemotes e3;
            EvSwitchRemoteBranch
              (Remote.Name remote +:+ "/" +:+ Branch.Name b)
              (Some (errors_New "Remote branch not found."))],
           Ret None m4) /\
    RepoEntity.Remote (entity m4) = Some l /\
    head (RepoEntity.Remotes (entity m4)) = Some l /\
    heap m4 !! l = Some remote /\
    Remote.Branch <$> heap m4 !! l = Remote.Branch <$> heap m3 !! l.
Proof.
  intros Hopen Hstat Hrepo Hlb Hlc Hsome Hlr Hremotes Hl Hactive Hmiss.
  unfold InitializeRepository. rewrite Hopen, Hstat, Hrepo.
  unfold InitializeRepository_fill. unfold_ops. rewrite Hlb. reduce.
  rewrite Hlc. reduce. rewrite Hsome. reduce. rewrite Hlr. reduce.
  rewrite Hactive. reduce. reduce_fields. rewrite Hremotes. reduce.
  reduce_fields. rewrite Hl. reduce. reduce_fields. rewrite Hl.
  rewrite (switchRemoteBranch_miss remote _ Hmiss). reduce.
  eexists. split; [reflexivity|]. reduce_fields.
  rewrite lookup_insert_eq. auto.
Qed.

Lemma missing_tracking_branch_is_not_an_error_witness :
  exists m4,
    InitializeRepository sample "/src/repo" (repo [origin_dev]) ∅ =
      inr ([EvLoadLocalBranches None; EvLoadCommits None; EvLoadRemotes None;
            EvSwitchRemoteBranch "origin/main"
              (Some (errors_New "Remote branch not found."))],
           Ret None m4) /\
    RepoEntity.Remote (entity m4) = Some 0 /\
    head (RepoEntity.Remotes (entity m4)) = Some 0 /\
    heap m4 !! 0 = Some (Remote.mk "origin" None [origin_dev]) /\
    Remote.Branch <$> heap m4 !! 0 = Some None.
Proof.
  refine (missing_tracking_branch_is_not_an_error sample "/src/repo"
            (repo [origin_dev]) ∅ 3 (FileInfo.mk "repo" 100) 7 _ None _ None
            c3 [c2; c1] _ None 0 [] (Remote.mk "origin" None [origin_dev]) main
            eq_refl eq_refl eq_refl eq_refl eq_refl eq_refl eq_refl eq_refl
            _ eq_refl _).
  - vm_compute. reflexivity.
  - intros rb [<-|[]]. vm_compute. discriminate.
Defined.

(** ** Further properties of [InitializeRepository] *)

(** X1: [InitializeRepository] hands back a nil entity exactly when
    [os.Open], [file.Stat] or [git.PlainOpen] fails, tried in that order, and
    the error is the one of the call that failed; an empty or remoteless
    repository never gives a nil entity. *)
Theorem InitializeRepository_nil_entity {World} (A : Helpers World)
    directory w h err :
  InitializeRepository A directory w h = inl err <->
  os_Open A w directory = inr err \/
  (exists file,
     os_Open A w directory = inl file /\ File_Stat A w file = inr err) \/
  (exists file fileInfo,
     os_Open A w directory = inl file /\
     File_Stat A w file = inl fileInfo /\
     git_PlainOpen A w directory = inr err).
Proof.
  unfold InitializeRepository.
  destruct (os_Open A w directory) as [file|e0];
    [destruct (File_Stat A w file) as [fileInfo|e1] eqn:Hstat;
     [destruct (git_PlainOpen A w directory) as [r|e2] eqn:Hrepo|]|].
  all: split;
    [ intros H; first [discriminate H | injection H as <-; eauto 10]
    | intros [H|[(f & H & H')|(f & fi & H & H' & H'')]]; congruence ].
Qed.

(** X2: an entity handed back with a nil error is ready for [Fetch]:
    [entity.Remote] points to a [Remote] object and is the first element of
    [entity.Remotes], [entity.Branch] is not nil, and [Fetch] on it returns
    without a nil dereference. *)
Theorem InitializeRepository_nil_error_is_ready {World} (A : Helpers World)
    directory w h evs m :
  InitializeRepository A directory w h = inr (evs, Ret None m) ->
  has_Remote m /\
  head (RepoEntity.Remotes (entity m)) = RepoEntity.Remote (entity m) /\
  RepoEntity.Branch (entity m) <> None /\
  exists evs' r m', Fetch A m = (evs', Ret r m').
Proof.
  intros Hrun.
  assert (Hready : has_Remote m /\
            head (RepoEntity.Remotes (entity m)) = RepoEntity.Remote (entity m)
            /\ RepoEntity.Branch (entity m) <> None).
  { revert Hrun. unfold InitializeRepository.
    destruct (os_Open A w directory) as [file|]; [|discriminate].
    destruct (File_Stat A w file) as [fileInfo|]; [|discriminate].
    destruct (git_PlainOpen A w directory) as [r|]; [|discriminate].
    unfold InitializeRepository_fill. unfold_ops. run_cases.
    all: intros H; inversion H; subst; clear H.
    all: unfold_fields; simplify_eq.
    split; [|split; simpl; [|congruence]].
    2: match goal with H : RepoEntity.Remotes _ = _ |- _ => now rewrite H end.
    eexists _, _. split; [reflexivity|apply lookup_insert_eq]. }
  destruct Hready as (HR & Hhead & Hbranch). repeat split; trivial.
  apply Fetch_returns_with_Remote. exact HR.
Qed.

Lemma InitializeRepository_nil_error_is_ready_witness :
  InitializeRepository sample "/src/repo" (repo [origin_dev]) ∅ =
    inr ([EvLoadLocalBranches None; EvLoadCommits None; EvLoadRemotes None;
          EvSwitchRemoteBranch "origin/main"
            (Some (errors_New "Remote branch not found."))],
         Ret None untracked) /\
  has_Remote untracked /\
  head (RepoEntity.Remotes (entity untracked)) =
    RepoEntity.Remote (entity untracked) /\
  RepoEntity.Branch (entity untracked) <> None /\
  exists evs' r m', Fetch sample untracked = (evs', Ret r m').
Proof.
  assert (Hrun : InitializeRepository sample "/src/repo" (repo [origin_dev]) ∅ =
    inr ([EvLoadLocalBranches None; EvLoadCommits None; EvLoadRemotes None;
          EvSwitchRemoteBranch "origin/main"
            (Some (errors_New "Remote branch not found."))],
         Ret None untracked)) by (vm_compute; reflexivity).
  split; [exact Hrun|].
  exact (InitializeRepository_nil_error_is_ready sample _ _ _ _ _ Hrun).
Defined.

(** X3: when commits and at least one remote were loaded and
    [getActiveBranch] answers nil, [InitializeRepository] neither returns an
    entity nor an error: it panics at [entity.Branch.Name], after the three
    loads and before any remote branch is selected. *)
Theorem InitializeRepository_panics_without_active_branch {World}
    (A : Helpers World) directory w h file fileInfo r m1 e1 m2 e2 c cs m3 e3
    l ls :
  os_Open A w directory = inl file ->
  File_Stat A w file = inl fileInfo ->
  git_PlainOpen A w directory = inl r ->
  loadLocalBranches A (mkMem w h (new_entity A directory w fileInfo r))
    = (m1, e1) ->
  loadCommits A m1 = (m2, e2) ->
  RepoEntity.Commits (entity m2) = c :: cs ->
  loadRemotes A (with_entity (RepoEntity.set_Commit (Some c)) m2) = (m3, e3) ->
  RepoEntity.Remotes (entity m3) = l :: ls ->
  getActiveBranch A m3 = None ->
  exists m4,
    InitializeRepository A directory w h =
      inr ([EvLoadLocalBranches e1; EvLoadCommits e2; EvLoadRemotes e3],
           Panic m4) /\
    RepoEntity.Branch (entity m4) = None /\
    RepoEntity.Remote (entity m4) = Some l.
Proof.
  intros Hopen Hstat Hrepo Hlb Hlc Hsome Hlr Hremotes Hactive.
  unfold InitializeRepository. rewrite Hopen, Hstat, Hrepo.
  unfold InitializeRepository_fill. unfold_ops. rewrite Hlb. reduce.
  rewrite Hlc. reduce. rewrite Hsome. reduce. rewrite Hlr. reduce.
  rewrite Hactive. reduce. reduce_fields. rewrite Hremotes. reduce.
  reduce_fields. destruct (heap m3 !! l); reduce; reduce_fields;
    eexists; (split; [reflexivity|]); reduce_fields; auto.
Qed.

Lemma InitializeRepository_panics_without_active_branch_witness :
  exists m4,
    InitializeRepository sample "/src/repo" detached_repo ∅ =
      inr ([EvLoadLocalBranches None; EvLoadCommits None; EvLoadRemotes None],
           Panic m4) /\
    RepoEntity.Branch (entity m4) = None /\
    RepoEntity.Remote (entity m4) = Some 0.
Proof.
  refine (InitializeRepository_panics_without_active_branch sample "/src/repo"
            detached_repo ∅ 3 (FileInfo.mk "repo" 100) 7 _ None _ None
            c3 [c2; c1] _ None 0 []
            eq_refl eq_refl eq_refl eq_refl eq_refl eq_refl eq_refl eq_refl
            eq_refl).
Defined.

(** ** Further properties of [Fetch], [Merge] and [Pull] *)

(** X4: a nil [entity.Remote] makes every operation panic: [Fetch] and
    [Pull] at their first statement, before any call is made, and [Merge]
    right after its [Checkout], the adapter merge never being called (unless
    that [Checkout] sets [entity.Remote]). *)
Theorem operations_panic_without_Remote {World} (A : Helpers World)
    (m : Mem World) :
  RepoEntity.Remote (entity m) = None ->
  Fetch A m = ([], Panic m) /\
  Pull A m = ([], Panic m) /\
  (RepoEntity.Remote
     (entity (Checkout A (RepoEntity.Branch (entity m)) m).1) = None ->
   Merge A m =
     ([EvCheckout (RepoEntity.Branch (entity m))
         (Checkout A (RepoEntity.Branch (entity m)) m).2],
      Panic (Checkout A (RepoEntity.Branch (entity m)) m).1)).
Proof.
  intros Hnil. unfold_ops. rewrite Hnil. reduce.
  split; [reflexivity|]. split; [reflexivity|].
  destruct (Checkout A (RepoEntity.Branch (entity m)) m) as [m1 c].
  simpl. intros Hnil1. rewrite Hnil1. reflexivity.
Qed.

Lemma operations_panic_without_Remote_witness :
  InitializeRepository sample "/src/repo" no_remote_repo ∅ =
    inr ([EvLoadLocalBranches None; EvLoadCommits None; EvLoadRemotes None],
         Ret (Some "There is no remote for this repository: /src/repo")
           remoteless) /\
  RepoEntity.Remote (entity remoteless) = None /\
  Fetch sample remoteless = ([], Panic remoteless) /\
  Pull sample remoteless = ([], Panic remoteless) /\
  Merge sample remoteless =
    ([EvCheckout (Some main) None],
     Panic (mkMem (touch 1 no_remote_repo) ∅ (entity remoteless))).
Proof.
  destruct (operations_panic_without_Remote sample remoteless eq_refl)
    as (HF & HP & HM).
  split; [vm_compute; reflexivity|].
  split; [reflexivity|]. split; [exact HF|]. split; [exact HP|].
  exact (HM eq_refl).
Defined.

(** Events that are no sub-step of [Refresh] are filtered out of its
    sub-steps. *)
Lemma filter_refresh_steps (f : Event -> bool) steps :
  (forall ev, refresh_step ev = true -> f ev = false) ->
  Forall (fun ev => refresh_step ev = true) steps ->
  List.filter f steps = [].
Proof.
  intros Hf HF. induction HF as [|ev steps Hev _ IH]; [reflexivity|].
  simpl. now rewrite (Hf ev Hev).
Qed.

(** An event found among the sub-steps of [Refresh] is one of them. *)
Ltac not_a_step :=
  match goal with
  | HF : Forall _ ?steps, Hin : In _ ?steps |- _ =>
      rewrite List.Forall_forall in HF; specialize (HF _ Hin);
      discriminate HF
  end.

(** Count the events selected by [f] in a trace of one of the shapes. *)
Ltac count_events f :=
  unfold refresh_call, fetch_trace, merge_trace; simpl;
  rewrite ?List.filter_app; simpl;
  rewrite ?(filter_refresh_steps f) by
    (assumption || (intros [] ?; (reflexivity || discriminate)));
  simpl.

(** X5: an operation that returns an error has handed exactly one line to
    the logger, and an operation that returns nil has handed it none. *)
Theorem error_is_logged_once {World} (A : Helpers World) op m evs r m' :
  run A op m = (evs, Ret r m') ->
  length (List.filter is_trace evs) =
    match r with Some _ => 1 | None => 0 end.
Proof.
  intros Hrun. apply run_trace_shape in Hrun. simpl in Hrun.
  inversion Hrun; subst; count_events is_trace; reflexivity.
Qed.

(** X6: the adapter merge is never called but right after a [Checkout]: in
    the trace of any operation, returned or panicked, every [MergeWithGit]
    event directly follows a [Checkout] event. *)
Theorem merge_directly_follows_Checkout {World} (A : Helpers World)
    op m evs o n r :
  run A op m = (evs, o) ->
  In (EvMergeWithGit n r) evs ->
  exists pre post b c,
    evs = pre ++ EvCheckout b c :: EvMergeWithGit n r :: post.
Proof.
  intros Hrun Hin. apply run_trace_shape in Hrun.
  inversion Hrun; subst.
  all: try (simpl in Hin; contradiction).
  all: trace_cases Hin; try not_a_step; inversion Hin; subst.
  all: first [ eexists [], _, _, _; reflexivity
             | eexists [_], _, _, _; reflexivity ].
Qed.

(** X7: an operation that returns has either entered [Refresh] exactly once
    or failed at the adapter fetch, never both and never neither. *)
Theorem one_Refresh_unless_fetch_failed {World} (A : Helpers World)
    op m evs r m' :
  run A op m = (evs, Ret r m') ->
  length (List.filter is_Refresh evs) +
  length (List.filter is_failed_fetch evs) = 1.
Proof.
  intros Hrun. apply run_trace_shape in Hrun. simpl in Hrun.
  inversion Hrun; subst; count_events is_Refresh;
    count_events is_failed_fetch; reflexivity.
Qed.

(** X8: where [Fetch] does not return nil, [Pull] does exactly what [Fetch]
    does: the same calls, the same result or panic, the same memory. *)
Theorem Pull_is_Fetch_unless_fetch_succeeds {World} (A : Helpers World)
    (m : Mem World) :
  returned (Fetch A m).2 <> Some None ->
  Pull A m = Fetch A m.
Proof.
  unfold_ops. run_cases.
  all: try (intros _; reflexivity).
  all: resolve_Refresh.
  all: intros H; exfalso; apply H; reflexivity.
Qed.

Lemma error_is_logged_once_witness :
  Pull sample merge_refused_dir_gone =
    ([EvFetchWithGit "origin" None; EvCheckout (Some main) None;
      EvMergeWithGit "origin/main" (Some "merge failed");
      merge_trace "origin/main"; EvRefresh; EvOpen "/src/repo";
      EvStat (Some ErrInvalid); EvRefreshReturn (Some ErrInvalid)],
     Ret (Some "merge failed")
       (entity_of (touch 2 (disk merge_refused_dir_gone)))) /\
  length (List.filter is_trace
    [EvFetchWithGit "origin" None; EvCheckout (Some main) None;
     EvMergeWithGit "origin/main" (Some "merge failed");
     merge_trace "origin/main"; EvRefresh; EvOpen "/src/repo";
     EvStat (Some ErrInvalid); EvRefreshReturn (Some ErrInvalid)]) = 1.
Proof.
  assert (Hrun : run sample OpPull merge_refused_dir_gone =
    ([EvFetchWithGit "origin" None; EvCheckout (Some main) None;
      EvMergeWithGit "origin/main" (Some "merge failed");
      merge_trace "origin/main"; EvRefresh; EvOpen "/src/repo";
      EvStat (Some ErrInvalid); EvRefreshReturn (Some ErrInvalid)],
     Ret (Some "merge failed")
       (entity_of (touch 2 (disk merge_refused_dir_gone)))))
    by (vm_compute; reflexivity).
  split; [exact Hrun|].
  exact (error_is_logged_once sample OpPull _ _ _ _ Hrun).
Defined.

Lemma merge_directly_follows_Checkout_witness :
  Merge sample checkout_refused_dir_gone =
    ([EvCheckout (Some main) (Some "checkout failed");
      EvMergeWithGit "origin/main" None; EvRefresh; EvOpen "/src/repo";
      EvStat (Some ErrInvalid); EvRefreshReturn (Some ErrInvalid)],
     Ret None (entity_of (touch 1 (disk checkout_refused_dir_gone)))) /\
  exists pre post b c,
    [EvCheckout (Some main) (Some "checkout failed");
     EvMergeWithGit "origin/main" None; EvRefresh; EvOpen "/src/repo";
     EvStat (Some ErrInvalid); EvRefreshReturn (Some ErrInvalid)] =
    pre ++ EvCheckout b c :: EvMergeWithGit "origin/main" None :: post.
Proof.
  assert (Hrun : run sample OpMerge checkout_refused_dir_gone =
    ([EvCheckout (Some main) (Some "checkout failed");
      EvMergeWithGit "origin/main" None; EvRefresh; EvOpen "/src/repo";
      EvStat (Some ErrInvalid); EvRefreshReturn (Some ErrInvalid)],
     Ret None (entity_of (touch 1 (disk checkout_refused_dir_gone)))))
    by (vm_compute; reflexivity).
  split; [exact Hrun|].
  apply (merge_directly_follows_Checkout sample OpMerge _ _ _ _ _ Hrun).
  simpl. auto.
Defined.

Lemma one_Refresh_unless_fetch_failed_witness :
  Fetch sample fetch_refused =
    ([EvFetchWithGit "origin" (Some "fetch failed"); fetch_trace "origin"],
     Ret (Some "fetch failed") fetch_refused) /\
  length (List.filter is_Refresh
    [EvFetchWithGit "origin" (Some "fetch failed"); fetch_trace "origin"]) +
  length (List.filter is_failed_fetch
    [EvFetchWithGit "origin" (Some "fetch failed"); fetch_trace "origin"]) = 1.
Proof.
  assert (Hrun : run sample OpFetch fetch_refused =
    ([EvFetchWithGit "origin" (Some "fetch failed"); fetch_trace "origin"],
     Ret (Some "fetch failed") fetch_refused)) by (vm_compute; reflexivity).
  split; [exact Hrun|].
  exact (one_Refresh_unless_fetch_failed sample OpFetch _ _ _ _ Hrun).
Defined.

Lemma Pull_is_Fetch_unless_fetch_succeeds_witness :
  returned (Fetch sample fetch_refused).2 = Some (Some "fetch failed") /\
  Pull sample fetch_refused = Fetch sample fetch_refused.
Proof.
  split; [vm_compute; reflexivity|].
  apply (Pull_is_Fetch_unless_fetch_succeeds sample fetch_refused).
  vm_compute. discriminate.
Defined.

(** ** Further properties of [Refresh] *)

Section FrameOfAnObservation.

Context {World X : Type}.
Variable A : Helpers World.
Variable obs : Mem World -> X.
Hypothesis Hrepo :
  forall r m, obs (with_entity (RepoEntity.set_Repository r) m) = obs m.
Hypothesis Hmod :
  forall t m, obs (with_entity (RepoEntity.set_ModTime t) m) = obs m.
Hypothesis Hkeep : Helpers_keep A obs.

Lemma Refresh_keeps_observation (m : Mem World) :
  obs (final (Refresh A m).2) = obs m.
Proof.
  destruct Hkeep as (Hlb & Hlc & Hlr & _).
  destruct (Refresh_run A m) as (evs & r & m' & Hrun & Hstops).
  rewrite Hrun. simpl. destruct Hstops; use_keeps; try reflexivity.
  all: unfold stored in *; rewrite Hmod, Hrepo in *; congruence.
Qed.

Lemma run_keeps_observation op (m : Mem World) :
  obs (final (run A op m).2) = obs m.
Proof.
  destruct Hkeep as (Hlb & Hlc & Hlr & Hco & Hfe & Hme).
  destruct op; unfold_ops; run_cases; try reflexivity.
  all: repeat match goal with
         | H : Refresh_ A ?m0 = _ |- _ =>
             let steps := fresh "steps" in
             let rr := fresh "rr" in
             let mR := fresh "mR" in
             let HR := fresh "HR" in
             let HR' := fresh "HR" in
             let X := fresh "Hkept" in
             destruct (Refresh_call_run A m0)
               as (steps & rr & mR & HR & HR' & _);
             rewrite HR in H; clear HR; inversion H; subst; clear H;
             pose proof (Refresh_keeps_observation m0) as X;
             rewrite HR' in X; simpl in X; clear HR'
         end.
  all: use_keeps; simpl; congruence.
Qed.

End FrameOfAnObservation.

(** X9: [Fetch], [Merge], [Pull] and [Refresh] assign [Repository] and
    [ModTime] and nothing else: whatever can be observed of the memory
    without these two fields, and is left alone by the methods written in
    other files, is after the call what it was before.  So [Refresh] reloads
    the collections but re-selects neither [Branch] nor [Remote] nor
    [Commit]. *)
Theorem operations_assign_Repository_and_ModTime_only {World X : Type}
    (A : Helpers World) (obs : Mem World -> X) :
  (forall r m, obs (with_entity (RepoEntity.set_Repository r) m) = obs m) ->
  (forall t m, obs (with_entity (RepoEntity.set_ModTime t) m) = obs m) ->
  Helpers_keep A obs ->
  (forall op m, obs (final (run A op m).2) = obs m) /\
  (forall m, obs (final (Refresh A m).2) = obs m).
Proof.
  intros Hrepo Hmod Hkeep. split; intros.
  - apply run_keeps_observation; assumption.
  - apply Refresh_keeps_observation; assumption.
Qed.

Lemma sample_action_keeps_entity {Y} (f : RepoEntity.t -> Y) err :
  keeps (fun m => f (entity m)) (sample_action err).
Proof.
  intros m. pose proof (sample_action_cached err m) as Hc.
  unfold cached in Hc. injection Hc as He _. now rewrite He.
Qed.

Lemma sample_keeps_selection : Helpers_keep sample selection.
Proof.
  repeat split; intros; try reflexivity.
  all: apply (sample_action_keeps_entity
                (fun e => (RepoEntity.Branch e, RepoEntity.Remote e,
                           RepoEntity.Commit e))).
Qed.

Lemma operations_assign_Repository_and_ModTime_only_witness :
  Helpers_keep sample selection /\
  selection (final (run sample OpPull (entity_of tracked)).2) =
    (Some main, Some 0, Some c3) /\
  selection (final (Refresh sample modified).2) =
    (Some main, Some 0, Some c3).
Proof.
  split; [exact sample_keeps_selection|].
  destruct (operations_assign_Repository_and_ModTime_only sample selection
              (fun _ _ => eq_refl) (fun _ _ => eq_refl)
              sample_keeps_selection) as (Hrun & Hrefresh).
  split.
  - exact (Hrun OpPull (entity_of tracked)).
  - exact (Hrefresh modified).
Defined.

(** X10: a [Refresh] that returns nil went through all its sub-steps, each
    answering nil, and (the loaders leaving [Repository] and [ModTime]
    alone) the entity then holds the handle just opened and the
    modification time just read. *)
Theorem Refresh_nil_stores_what_it_read {World} (A : Helpers World)
    (m m' : Mem World) evs :
  Refresh A m = (evs, Ret None m') ->
  keeps refreshed_fields (loadLocalBranches A) ->
  keeps refreshed_fields (loadCommits A) ->
  keeps refreshed_fields (loadRemotes A) ->
  evs = [EvOpen (RepoEntity.AbsPath (entity m)); EvStat None;
         EvPlainOpen (RepoEntity.AbsPath (entity m)) None;
         EvLoadLocalBranches None; EvLoadCommits None; EvLoadRemotes None] /\
  exists fileInfo r,
    stat A m = inl fileInfo /\ reopen A m = inl r /\
    refreshed_fields m' = (r, FileInfo.ModTime fileInfo).
Proof.
  intros Hrun Hlb Hlc Hlr.
  destruct (Refresh_run A m) as (evs0 & r0 & m0 & Hrun0 & Hstops).
  rewrite Hrun in Hrun0. injection Hrun0 as <- <- <-.
  inversion Hstops; subst. split; [reflexivity|].
  exists fi, r. split; [assumption|]. split; [assumption|].
  use_keeps. unfold stored, refreshed_fields in *. simpl in *. congruence.
Qed.

Lemma Refresh_nil_stores_what_it_read_witness :
  Refresh sample modified =
    ([EvOpen "/src/repo"; EvStat None; EvPlainOpen "/src/repo" None;
      EvLoadLocalBranches None; EvLoadCommits None; EvLoadRemotes None],
     Ret None (final (Refresh sample modified).2)) /\
  RepoEntity.ModTime (entity modified) = 100%Z /\
  exists fileInfo r,
    stat sample modified = inl fileInfo /\ reopen sample modified = inl r /\
    refreshed_fields (final (Refresh sample modified).2) =
      (r, FileInfo.ModTime fileInfo) /\
    FileInfo.ModTime fileInfo = 250%Z.
Proof.
  assert (Hrun : Refresh sample modified =
    ([EvOpen "/src/repo"; EvStat None; EvPlainOpen "/src/repo" None;
      EvLoadLocalBranches None; EvLoadCommits None; EvLoadRemotes None],
     Ret None (final (Refresh sample modified).2)))
    by (vm_compute; reflexivity).
  split; [exact Hrun|]. split; [reflexivity|].
  destruct (Refresh_nil_stores_what_it_read sample modified _ _ Hrun)
    as (_ & fi & r & Hstat & Hopen & Hfields);
    try (intros m0; reflexivity).
  exists fi, r. repeat split; trivial.
  vm_compute in Hstat. injection Hstat as <-. reflexivity.
Defined.


(** X12: a [Refresh] that called no loader has changed nothing: the entity,
    the [Remote] objects and the disk are as they were. *)
Theorem Refresh_changes_nothing_before_loading {World} (A : Helpers World)
    (m m' : Mem World) evs r :
  Refresh A m = (evs, Ret r m') ->
  List.filter is_load evs = [] ->
  m' = m /\ r <> None.
Proof.
  intros Hrun Hnone.
  destruct (Refresh_run A m) as (evs0 & r0 & m0 & Hrun0 & Hstops).
  rewrite Hrun in Hrun0. injection Hrun0 as <- <- <-.
  destruct Hstops; try discriminate Hnone; split; (reflexivity || discriminate).
Qed.

Lemma Refresh_changes_nothing_before_loading_witness :
  Refresh sample repo_damaged =
    ([EvOpen "/src/repo"; EvStat None;
      EvPlainOpen "/src/repo" (Some "repository does not exist")],
     Ret (Some "repository does not exist") repo_damaged) /\
  repo_damaged = repo_damaged /\
  Some "repository does not exist" <> None.
Proof.
  assert (Hrun : Refresh sample repo_damaged =
    ([EvOpen "/src/repo"; EvStat None;
      EvPlainOpen "/src/repo" (Some "repository does not exist")],
     Ret (Some "repository does not exist") repo_damaged))
    by (vm_compute; reflexivity).
  split; [exact Hrun|].
  exact (Refresh_changes_nothing_before_loading sample _ _ _ _ Hrun eq_refl).
Defined.

(** ** Errors of the loaders *)

(** X13: the errors of [loadLocalBranches], [loadCommits], [loadRemotes] and
    [switchRemoteBranch] never reach the caller of [InitializeRepository]:
    an error handed back with an entity is one of the two made by
    [errors.New], "There is no commit ..." or "There is no remote ...",
    followed by the directory. *)
Theorem InitializeRepository_drops_loader_errors {World} (A : Helpers World)
    directory w h evs err m :
  InitializeRepository A directory w h = inr (evs, Ret (Some err) m) ->
  err = errors_New
          ("There is no commit for this repository: " +:+ directory) \/
  err = errors_New
          ("There is no remote for this repository: " +:+ directory).
Proof.
  unfold InitializeRepository.
  destruct (os_Open A w directory) as [file|]; [|discriminate].
  destruct (File_Stat A w file) as [fileInfo|]; [|discriminate].
  destruct (git_PlainOpen A w directory) as [r|]; [|discriminate].
  unfold InitializeRepository_fill. unfold_ops. run_cases.
  all: intros H; inversion H; subst; clear H; auto.
Qed.

Lemma InitializeRepository_drops_loader_errors_witness :
  InitializeRepository sample "/src/repo" broken_log ∅ =
    inr ([EvLoadLocalBranches None; EvLoadCommits (Some "object not found")],
         Ret (Some "There is no commit for this repository: /src/repo")
           (final (InitializeRepository_fill sample "/src/repo"
                     (mkMem broken_log ∅
                        (new_entity sample "/src/repo" broken_log
                           (FileInfo.mk "repo" 100) 7))).2)) /\
  ("There is no commit for this repository: /src/repo" =
     errors_New ("There is no commit for this repository: " +:+ "/src/repo")
   \/
   "There is no commit for this repository: /src/repo" =
     errors_New ("There is no remote for this repository: " +:+ "/src/repo")).
Proof.
  assert (Hrun : InitializeRepository sample "/src/repo" broken_log ∅ =
    inr ([EvLoadLocalBranches None; EvLoadCommits (Some "object not found")],
         Ret (Some "There is no commit for this repository: /src/repo")
           (final (InitializeRepository_fill sample "/src/repo"
                     (mkMem broken_log ∅
                        (new_entity sample "/src/repo" broken_log
                           (FileInfo.mk "repo" 100) 7))).2)))
    by (vm_compute; reflexivity).
  split; [exact Hrun|].
  exact (InitializeRepository_drops_loader_errors sample _ _ _ _ _ _ Hrun).
Defined.
